(** * x-analyser: tweet cache and LLM-analysis pipeline

    A shallow embedding of the two scripts of the repository,

    - [twitter-media-gemini.py]  (the multi-modal variant, module [Gemini]),
    - [x-analyser-openrouter.py] (the chat-completion variant, module
      [OpenRouter]),

    followed by the properties of the cache store, the post fetcher, the
    prompt builder and the analysis back ends.

    Conventions of the embedding.

    - Python values that travel through [json.load] / [json.dump] and the
      f-strings of the scripts are values of type [json].
    - A method of [TwitterChatAnalyser] is a computation [prog A]: it takes
      the state of the object and of the outside world ([self.tweets],
      [self.username], the files on disk, what was printed, which remote
      calls were made) and returns either a value or a raised exception,
      with the new state.
    - What the outside world answers during one call (the clock, the replies
      of the social API, of the HTTP servers and of the model, whether a
      write to disk goes through) is a record [env] given to the method.
    - Functions of the Python libraries whose results are only compared or
      passed on ([datetime.isoformat], [datetime.fromisoformat], [strftime],
      [repr] and [json.dumps] of a string, whether [PIL.Image.open] accepts
      some bytes) are the fields of a record [pylib].
    - A Python [str] is a [string], one [ascii] for each of its characters;
      the numbers of a [json] value are integers, the only ones the scripts
      store.
    - [console.print] is taken to succeed, and so are reading and removing
      a file that exists; the progress bar of [rich.progress], which only
      draws, is left out. *)

From Stdlib Require Import Ascii.
From Stdlib Require Import QArith.
From stdpp Require Import base option list strings pretty gmap.

Set Warnings "-register-all".

Local Open Scope string_scope.
Local Open Scope list_scope.
Local Open Scope Z_scope.

(** ** JSON values, and the Python operations the scripts apply to them *)

Inductive json : Type :=
| JNull
| JBool (b : bool)
| JNum (n : Z)
| JStr (s : string)
| JArr (items : list json)
| JObj (fields : list (string * json)).

(** The exceptions the scripts can meet.  [RemoteError] and [OSError] carry
    the message of the library that raised them. *)
Inductive exn : Type :=
| KeyError (key : json)
| IndexError
| TypeError
| ValueError
| AttributeError
| JSONDecodeError
| OSError (msg : string)
| RemoteError (msg : string).

Inductive result (A : Type) : Type :=
| Val (a : A)
| Exn (e : exn).
Arguments Val {A} a.
Arguments Exn {A} e.

(** [bool(v)]: what [if v:] and [if not v:] test. *)
Definition truthy (v : json) : bool :=
  match v with
  | JNull => false
  | JBool b => b
  | JNum n => negb (n =? 0)
  | JStr s => negb (String.eqb s "")
  | JArr items => match items with [] => false | _ => true end
  | JObj fields => match fields with [] => false | _ => true end
  end.

(** [d.get(k)] on a dict kept as the list of its items. *)
Fixpoint assoc {A} (k : string) (fields : list (string * A)) : option A :=
  match fields with
  | [] => None
  | (k', v) :: rest => if String.eqb k k' then Some v else assoc k rest
  end.

(** [v[k]] for a string key [k]. *)
Definition subscript (v : json) (k : string) : result json :=
  match v with
  | JObj fields =>
      match assoc k fields with
      | Some x => Val x
      | None => Exn (KeyError (JStr k))
      end
  | _ => Exn TypeError
  end.

(** [v[0]]. *)
Definition subscript0 (v : json) : result json :=
  match v with
  | JArr (x :: _) => Val x
  | JArr [] => Exn IndexError
  | JStr (String c _) => Val (JStr (String c ""))
  | JStr EmptyString => Exn IndexError
  | JObj _ => Exn (KeyError (JNum 0))
  | _ => Exn TypeError
  end.

Fixpoint chars (s : string) : list json :=
  match s with
  | EmptyString => []
  | String c rest => JStr (String c "") :: chars rest
  end.

(** [for x in v]: the items the loop visits, or the [TypeError] of a value
    that is not iterable. *)
Definition py_iter (v : json) : result (list json) :=
  match v with
  | JArr items => Val items
  | JObj fields => Val (map (λ kv, JStr kv.1) fields)
  | JStr s => Val (chars s)
  | _ => Exn TypeError
  end.

(** ** Files, console and remote calls *)

(** The content of a file, as its readers see it: a text on which
    [json.load] returns [j], or any other bytes, on which it raises. *)
Inductive file : Type :=
| Doc (j : json)
| Raw (bytes : string).

(** What [console.print] was given. *)
Inductive output : Type :=
| Line (markup : string)
| Report (before : string) (e : exn) (after : string)
| Panel (title : string) (markdown : string).

(** The body of the request to the chat-completion endpoint. *)
Record message : Type := mkMessage {
  role : string;
  content : string
}.

Record chat_request : Type := mkChatRequest {
  model : string;
  messages : list message;
  temperature : Q;
  max_tokens : Z
}.

(** The remote calls, in the order they were made. *)
Inductive call : Type :=
| GetUser (username : string)
| GetUsersTweets (id : Z)
| HttpGet (url : string)
| HttpPost (url : string) (headers : list (string * string)) (payload : chat_request)
| GenerateContent (prompt : string) (images : list string).

(** The fields of the object ([openrouter_key] is set by the
    chat-completion script only) and the outside world. *)
Record state : Type := mkState {
  tweets : json;
  username : option string;
  openrouter_key : string;
  fs : gmap string file;
  console : list output;
  calls : list call
}.

Definition set_tweets (v : json) (s : state) : state :=
  mkState v (username s) (openrouter_key s) (fs s) (console s) (calls s).
Definition set_username (u : option string) (s : state) : state :=
  mkState (tweets s) u (openrouter_key s) (fs s) (console s) (calls s).
Definition set_fs (m : gmap string file) (s : state) : state :=
  mkState (tweets s) (username s) (openrouter_key s) m (console s) (calls s).
Definition add_output (o : output) (s : state) : state :=
  mkState (tweets s) (username s) (openrouter_key s) (fs s)
          (console s ++ [o]) (calls s).
Definition add_call (c : call) (s : state) : state :=
  mkState (tweets s) (username s) (openrouter_key s) (fs s)
          (console s) (calls s ++ [c]).

Definition add_outputs (os : list output) (s : state) : state :=
  mkState (tweets s) (username s) (openrouter_key s) (fs s)
          (console s ++ os) (calls s).

(** ** Computations: state and exceptions *)

Definition prog (A : Type) : Type := state → result A * state.

Definition ret {A} (a : A) : prog A := λ s, (Val a, s).
Definition raise {A} (e : exn) : prog A := λ s, (Exn e, s).
Definition bind {A B} (m : prog A) (k : A → prog B) : prog B :=
  λ s, match m s with
       | (Val a, s') => k a s'
       | (Exn e, s') => (Exn e, s')
       end.

(** [try: m  except Exception as e: h e]. *)
Definition try_except {A} (m : prog A) (h : exn → prog A) : prog A :=
  λ s, match m s with
       | (Val a, s') => (Val a, s')
       | (Exn e, s') => h e s'
       end.

Definition lift {A} (r : result A) : prog A := λ s, (r, s).
Definition gets {A} (f : state → A) : prog A := λ s, (Val (f s), s).
Definition modify (f : state → state) : prog unit := λ s, (Val tt, f s).
Definition print (o : output) : prog unit := modify (add_output o).
Definition record (c : call) : prog unit := modify (add_call c).

Declare Scope prog_scope.
Delimit Scope prog_scope with prog.
Notation "x <- m ;; k" := (bind m (λ x, k))
  (at level 100, m at next level, right associativity) : prog_scope.
Notation "m ;;; k" := (bind m (λ _, k))
  (at level 100, right associativity) : prog_scope.
Local Open Scope prog_scope.

(** A [for] loop whose body can raise: the items are visited in order and
    the first exception ends the loop. *)
Fixpoint for_each {A} (items : list A) (body : A → prog unit) : prog unit :=
  match items with
  | [] => ret tt
  | x :: rest => body x ;;; for_each rest body
  end.

(** ** The library functions and the outside world *)

(** A naive [datetime] is its number of microseconds on the local time
    line; [timedelta(hours=24)] is [day]. *)
Definition datetime : Type := Z.
Definition day : Z := 24 * 3600 * 1000000.

Record pylib : Type := mkLib {
  (** [d.isoformat()] *)
  isoformat : datetime → string;
  (** [datetime.fromisoformat(s)]: [None] when it raises, or when the
      value cannot be subtracted from [datetime.now()]. *)
  fromisoformat : string → option datetime;
  (** [d.strftime('%Y-%m-%d %H:%M:%S')] *)
  strftime : datetime → string;
  (** [repr(s)] of a string *)
  repr_str : string → string;
  (** [json.dumps(s)] of a string: the quoted, escaped text *)
  json_str : string → string;
  (** whether [PIL.Image.open] accepts a file with these bytes *)
  pil_accepts : string → bool
}.

(** The reply of a remote call: a value, or the exception it raised. *)
Inductive reply (A : Type) : Type :=
| Returns (a : A)
| Raises (e : exn).
Arguments Returns {A} a.
Arguments Raises {A} e.

Definition await {A} (r : reply A) : prog A :=
  match r with
  | Returns a => ret a
  | Raises e => raise e
  end.

(** How a write to a file goes: to the end; refused when the file is opened
    (nothing changes on disk); or interrupted after the file was opened for
    writing, and so emptied, leaving [written] behind. *)
Inductive write_outcome : Type :=
| WriteOk
| WriteRefused (e : exn)
| WriteTorn (written : string) (e : exn).

(** What the social API returns. *)
Record media : Type := mkMedia {
  media_key : string;
  url : option string;
  preview_image_url : option string
}.

Record raw_tweet : Type := mkRawTweet {
  t_id : Z;
  t_text : string;
  (** [t.created_at], by its [isoformat()]; [None] when the attribute is
      [None], on which [.isoformat()] raises [AttributeError]. *)
  t_created_at : option string;
  t_public_metrics : json;
  (** [t.attachments]: [None], or a dict from field names to keys. *)
  t_attachments : option (list (string * list string))
}.

Record timeline : Type := mkTimeline {
  data : option (list raw_tweet);
  includes_media : list media
}.

(** What [requests] returns: the status, the body, and the value of
    [response.json()] when the body parses. *)
Record response : Type := mkResponse {
  status_code : Z;
  body : string;
  body_json : option json
}.

Record env : Type := mkEnv {
  (** [datetime.now()] when the cache is read, and when it is written *)
  now : datetime;
  now_saved : datetime;
  (** [twitter_client.get_user(username=u)]: [user.data], by its id *)
  get_user : string → reply (option Z);
  (** [twitter_client.get_users_tweets(id=i, ...)] *)
  get_users_tweets : Z → reply timeline;
  (** [requests.get(url, timeout=10)] *)
  http_get : string → reply response;
  (** [requests.post(url, headers=..., json=payload)] *)
  http_post : string → chat_request → reply response;
  (** [model.generate_content(...)] followed by [response.text] *)
  generate_content : string → list string → reply string;
  (** how writing the file at a path goes *)
  disk_write : string → write_outcome
}.

(** ** Paths and files *)

Definition nl : string := String "010"%char "".

(** [dir / name] of [pathlib]: an absolute [name] replaces [dir].  Paths are
    relative to the directory of the script, and are compared as they are
    written. *)
Definition path_join (dir name : string) : string :=
  match name with
  | String "/"%char _ => name
  | _ => dir +:+ "/" +:+ name
  end.

Definition cache_dir : string := "cache".
Definition media_dir : string := path_join cache_dir "media".

(** [self.cache_dir / f"{username}_tweets.json"] *)
Definition cache_file (username : string) : string :=
  path_join cache_dir (username +:+ "_tweets.json").

(** [self.media_dir / f"{tweet_id}.jpg"] *)
Definition media_file (tweet_id : Z) : string :=
  path_join media_dir (pretty tweet_id +:+ ".jpg").

(** [with open(path, 'w') as f: ...write content...] *)
Definition write_file (e : env) (path : string) (content : file) : prog unit :=
  match disk_write e path with
  | WriteOk => modify (λ s, set_fs (<[path := content]> (fs s)) s)
  | WriteRefused ex => raise ex
  | WriteTorn written ex =>
      modify (λ s, set_fs (<[path := Raw written]> (fs s)) s) ;;; raise ex
  end.

(** [with open(path) as f: data = json.load(f)] on a file that exists. *)
Definition json_load (path : string) : prog json :=
  f <- gets (λ s, fs s !! path) ;;
  match f with
  | Some (Doc j) => ret j
  | Some (Raw _) => raise JSONDecodeError
  | None => raise (OSError "No such file or directory")
  end.

Definition exists_file (path : string) : prog bool :=
  gets (λ s, bool_decide (is_Some (fs s !! path))).

(** [datetime.fromisoformat(v)] on a value read from a file. *)
Definition parse_time (L : pylib) (v : json) : result datetime :=
  match v with
  | JStr s =>
      match fromisoformat L s with
      | Some d => Val d
      | None => Exn ValueError
      end
  | _ => Exn TypeError
  end.

(** ** Formatting values in f-strings *)

Section Formatting.
Context (L : pylib).

(** [repr(v)] *)
Fixpoint py_repr (v : json) : string :=
  match v with
  | JNull => "None"
  | JBool true => "True"
  | JBool false => "False"
  | JNum n => pretty n
  | JStr s => repr_str L s
  | JArr items => "[" +:+ String.concat ", " (map py_repr items) +:+ "]"
  | JObj fields =>
      "{" +:+ String.concat ", "
                (map (λ '(k, x), repr_str L k +:+ ": " +:+ py_repr x) fields)
          +:+ "}"
  end.

(** [str(v)], which is what [f"{v}"] inserts. *)
Definition py_str (v : json) : string :=
  match v with
  | JStr s => s
  | _ => py_repr v
  end.

(** [f"{self.username}"] *)
Definition str_username (u : option string) : string :=
  match u with
  | Some name => name
  | None => "None"
  end.
End Formatting.

(** Truth of an optional string: [None] and [''] are false. *)
Definition str_truthy (o : option string) : bool :=
  match o with
  | Some s => negb (String.eqb s "")
  | None => false
  end.

(** [a or b] on optional strings. *)
Definition py_or (a b : option string) : option string :=
  if str_truthy a then a else b.

(** [self.tweets.append(x)] *)
Definition append_tweet (x : json) : prog unit :=
  λ s, match tweets s with
       | JArr items => (Val tt, set_tweets (JArr (items ++ [x])) s)
       | _ => (Exn AttributeError, s)
       end.

(** * The multi-modal variant: [twitter-media-gemini.py] *)

Module Gemini.
Section WithLib.
Context (L : pylib).

Definition load_cached_tweets (e : env) (username : string)
  : prog (option (json * datetime)) :=
  let cache_file := cache_file username in
  present <- exists_file cache_file ;;
  if present : bool then
    try_except
      (data <- json_load cache_file ;;
       stamp <- lift (subscript data "timestamp") ;;
       cache_time <- lift (parse_time L stamp) ;;
       (* Cache expires after 24 hours *)
       if bool_decide (now e - cache_time < day) then
         cached <- lift (subscript data "tweets") ;;
         ret (Some (cached, cache_time))
       else ret None)
      (λ ex,
         print (Report "[yellow]Warning: Failed to load cache: " ex "[/yellow]") ;;;
         ret None)
  else ret None.

Definition snapshot (stamp : datetime) (posts : json) : json :=
  JObj [("timestamp", JStr (isoformat L stamp)); ("tweets", posts)].

Definition save_tweets_to_cache (e : env) (username : string) (posts : json)
  : prog unit :=
  let cache_file := cache_file username in
  try_except
    (write_file e cache_file (Doc (snapshot (now_saved e) posts)))
    (λ ex,
       print (Report "[yellow]Warning: Failed to save cache: " ex "[/yellow]")).

Definition download_media (e : env) (media_url : string) (tweet_id : Z)
  : prog (option string) :=
  try_except
    (record (HttpGet media_url) ;;;
     response <- await (http_get e media_url) ;;
     if bool_decide (status_code response = 200) then
       let media_path := media_file tweet_id in
       write_file e media_path (Raw (body response)) ;;;
       ret (Some media_path)
     else ret None)
    (λ ex,
       print (Report "[yellow]Warning: Failed to download media: " ex "[/yellow]") ;;;
       ret None).

(** [PIL.Image.open(image_path)]: the image is kept by its bytes. *)
Definition load_image (image_path : json) : prog (option string) :=
  try_except
    (match image_path with
     | JStr p =>
         f <- gets (λ s, fs s !! p) ;;
         match f with
         | Some (Raw b) =>
             if pil_accepts L b then ret (Some b)
             else raise (OSError "cannot identify image file")
         | Some (Doc _) => raise (OSError "cannot identify image file")
         | None => raise (OSError "No such file or directory")
         end
     | _ => raise AttributeError
     end)
    (λ ex,
       print (Report ("[yellow]Warning: Failed to load image "
                        +:+ py_str L image_path +:+ ": ") ex "[/yellow]") ;;;
       ret None).

(** [{m.media_key: m for m in ...}]: a later item replaces an earlier one
    with the same key. *)
Definition media_lookup_of (ms : list media) : gmap string media :=
  foldl (λ m x, <[media_key x := x]> m) ∅ ms.

(** Lines 209-216: the loop over the media keys of one tweet; the result
    is [tweet_data['media']]. *)
Fixpoint collect_media (e : env) (media_lookup : gmap string media)
    (tweet_id : Z) (media_keys : list string) : prog (list string) :=
  match media_keys with
  | [] => ret []
  | key :: rest =>
      got <- match media_lookup !! key with
             | Some media =>
                 let media_url := py_or (url media) (preview_image_url media) in
                 match media_url with
                 | Some u =>
                     if str_truthy media_url then download_media e u tweet_id
                     else ret None
                 | None => ret None
                 end
             | None => ret None
             end ;;
      more <- collect_media e media_lookup tweet_id rest ;;
      ret (match got with
           | Some media_path =>
               if str_truthy got then media_path :: more else more
           | None => more
           end)
  end.

Definition tweet_data (t : raw_tweet) (created_at : string)
    (media_paths : list string) : json :=
  JObj [("id", JNum (t_id t));
        ("text", JStr (t_text t));
        ("created_at", JStr created_at);
        ("metrics", t_public_metrics t);
        ("media", JArr (map JStr media_paths))].

(** Lines 199-218: the body of the loop over [tweets.data]. *)
Definition add_tweet (e : env) (media_lookup : gmap string media)
    (t : raw_tweet) : prog unit :=
  created_at <- match t_created_at t with
                | Some c => ret c
                | None => raise AttributeError
                end ;;
  media_paths <- match t_attachments t with
                 | Some ((_ :: _) as attachments) =>
                     let media_keys :=
                       default [] (assoc "media_keys" attachments) in
                     collect_media e media_lookup (t_id t) media_keys
                 | _ => ret []
                 end ;;
  append_tweet (tweet_data t created_at media_paths).

(** Lines 175-227: the posts are fetched from the social API. *)
Definition fetch_fresh (e : env) (username : string) : prog bool :=
  returned <-
    try_except
      (record (GetUser username) ;;;
       user <- await (get_user e username) ;;
       match user with
       | None =>
           print (Line "[red]User not found[/red]") ;;;
           ret (Some false)
       | Some id =>
           record (GetUsersTweets id) ;;;
           tl <- await (get_users_tweets e id) ;;
           match data tl with
           | Some ((_ :: _) as ts) =>
               let media_lookup := media_lookup_of (includes_media tl) in
               modify (set_tweets (JArr [])) ;;;
               for_each ts (add_tweet e media_lookup) ;;;
               posts <- gets tweets ;;
               save_tweets_to_cache e username posts ;;;
               ret (Some true)
           | _ => ret None
           end
       end)
      (λ ex,
         print (Report "[red]Error: " ex "[/red]") ;;;
         ret (Some false)) ;;
  ret (default false returned).

Definition fetch_tweets (e : env) (username : string) (force_refresh : bool)
  : prog bool :=
  modify (set_username (Some username)) ;;;
  served <- (if force_refresh then ret false
             else
               cached <- load_cached_tweets e username ;;
               match cached with
               | Some (cached_tweets, cache_time) =>
                   if truthy cached_tweets then
                     modify (set_tweets cached_tweets) ;;;
                     print (Line ("[green]Using cached tweets from "
                                    +:+ strftime L cache_time +:+ "[/green]")) ;;;
                     ret true
                   else ret false
               | None => ret false
               end) ;;
  if served : bool then ret true else fetch_fresh e username.

(** Lines 93-98: the media files of the loaded tweets are removed; a
    failing [unlink] is passed over. *)
Definition unlink_quietly (media_path : json) : prog unit :=
  match media_path with
  | JStr p => modify (λ s, set_fs (delete p (fs s)) s)
  | _ => ret tt
  end.

Definition clear_cache (username : string) : prog bool :=
  let cache_file := cache_file username in
  present <- exists_file cache_file ;;
  if present : bool then
    try_except
      (modify (λ s, set_fs (delete cache_file (fs s)) s) ;;;
       ts <- gets tweets ;;
       items <- lift (py_iter ts) ;;
       for_each items (λ tweet,
         paths <- lift (subscript tweet "media") ;;
         media_paths <- lift (py_iter paths) ;;
         for_each media_paths unlink_quietly) ;;;
       print (Line ("[green]Cache cleared for @" +:+ username +:+ "[/green]")) ;;;
       ret true)
      (λ ex,
         print (Report "[red]Error clearing cache: " ex "[/red]") ;;;
         ret false)
  else ret false.

Definition refresh_tweets (e : env) : prog bool :=
  u <- gets username ;;
  match u with
  | Some name =>
      if str_truthy u then
        print (Line ("[cyan]Refreshing tweets for @" +:+ name +:+ "...[/cyan]")) ;;;
        clear_cache name ;;;
        fetch_tweets e name true
      else
        print (Line "[yellow]No user selected[/yellow]") ;;; ret false
  | None =>
      print (Line "[yellow]No user selected[/yellow]") ;;; ret false
  end.

(** ** Prompt builder (lines 237-254) *)

Definition prompt_header (u : option string) (question : string) : string :=
  "Analyze these tweets from @" +:+ str_username u +:+ " to answer: "
    +:+ question +:+ nl
    +:+ "            " +:+ nl
    +:+ "Please provide a clear and concise analysis considering both the text content and any images present."
    +:+ nl +:+ nl
    +:+ "Tweets:" +:+ nl.

(** Lines 251-254: the images of one tweet are appended to [images]. *)
Fixpoint load_images (media_paths : list json) (images : list string)
  : prog (list string) :=
  match media_paths with
  | [] => ret images
  | media_path :: rest =>
      img <- load_image media_path ;;
      load_images rest (match img with
                        | Some i => images ++ [i]
                        | None => images
                        end)
  end.

(** Lines 246-254: the body of the loop over [self.tweets]. *)
Definition describe_tweet (tweet : json) (acc : string * list string)
  : prog (string * list string) :=
  let '(prompt, images) := acc in
  text <- lift (subscript tweet "text") ;;
  let prompt := prompt +:+ nl +:+ "Text: " +:+ py_str L text +:+ nl in
  metrics <- lift (subscript tweet "metrics") ;;
  likes <- lift (subscript metrics "like_count") ;;
  replies <- lift (subscript metrics "reply_count") ;;
  retweets <- lift (subscript metrics "retweet_count") ;;
  let prompt := prompt +:+ "Metrics: " +:+ py_str L likes +:+ " likes, "
                  +:+ py_str L replies +:+ " replies, "
                  +:+ py_str L retweets +:+ " retweets" +:+ nl in
  attached <- lift (subscript tweet "media") ;;
  if truthy attached then
    media_paths <- lift (py_iter attached) ;;
    images <- load_images media_paths images ;;
    ret (prompt, images)
  else ret (prompt, images).

Fixpoint describe_tweets (items : list json) (acc : string * list string)
  : prog (string * list string) :=
  match items with
  | [] => ret acc
  | tweet :: rest =>
      acc <- describe_tweet tweet acc ;;
      describe_tweets rest acc
  end.

(** The request of the multi-modal back end: the text and the images. *)
Definition build_prompt (u : option string) (posts : json) (question : string)
  : prog (string * list string) :=
  items <- lift (py_iter posts) ;;
  describe_tweets items (prompt_header u question, []).

(** [generate_content(prompt)] and [generate_content([prompt, *images])]
    are the one call [GenerateContent prompt images]; the first is the
    case of no image. *)
Definition analyse_with_gemini (e : env) (question : string) : prog unit :=
  ts <- gets tweets ;;
  if negb (truthy ts) then
    print (Line "[yellow]No tweets loaded.[/yellow]")
  else
    u <- gets username ;;
    request <- build_prompt u ts question ;;
    let '(prompt, images) := request in
    try_except
      (record (GenerateContent prompt images) ;;;
       analysis <- await (generate_content e prompt images) ;;
       print (Panel "Analysis" analysis))
      (λ ex,
         print (Report "[red]Error during analysis: " ex "[/red]")).
End WithLib.
End Gemini.

(** * The chat-completion variant: [x-analyser-openrouter.py] *)

(** [json.dumps(v, indent=2)]: [level] is the depth of [v]. *)
Section Dumps.
Context (L : pylib).

Fixpoint pad (level : nat) : string :=
  match level with
  | O => ""
  | S n => "  " +:+ pad n
  end.

Fixpoint dumps_indent (level : nat) (v : json) : string :=
  let inner := nl +:+ pad (S level) in
  match v with
  | JNull => "null"
  | JBool true => "true"
  | JBool false => "false"
  | JNum n => pretty n
  | JStr s => json_str L s
  | JArr [] => "[]"
  | JArr items =>
      "[" +:+ inner
          +:+ String.concat ("," +:+ inner) (map (dumps_indent (S level)) items)
          +:+ nl +:+ pad level +:+ "]"
  | JObj [] => "{}"
  | JObj fields =>
      "{" +:+ inner
          +:+ String.concat ("," +:+ inner)
                (map (λ '(k, x), json_str L k +:+ ": " +:+ dumps_indent (S level) x)
                     fields)
          +:+ nl +:+ pad level +:+ "}"
  end.
End Dumps.

Module OpenRouter.
Section WithLib.
Context (L : pylib).

Definition load_cached_tweets (e : env) (username : string)
  : prog (option (json * datetime)) :=
  let cache_file := cache_file username in
  present <- exists_file cache_file ;;
  if negb present then ret None
  else
    data <- json_load cache_file ;;
    stamp <- lift (subscript data "cached_at") ;;
    cache_time <- lift (parse_time L stamp) ;;
    if bool_decide (now e - cache_time > day) then ret None
    else
      cached <- lift (subscript data "tweets") ;;
      ret (Some (cached, cache_time)).

Definition snapshot (stamp : datetime) (posts : json) : json :=
  JObj [("tweets", posts); ("cached_at", JStr (isoformat L stamp))].

Definition save_tweets_to_cache (e : env) (username : string) (posts : json)
  : prog unit :=
  let cache_data := snapshot (now_saved e) posts in
  let cache_file := cache_file username in
  write_file e cache_file (Doc cache_data).

Definition tweet_data (t : raw_tweet) (created_at : string) : json :=
  JObj [("id", JNum (t_id t));
        ("text", JStr (t_text t));
        ("created_at", JStr created_at);
        ("metrics", t_public_metrics t)].

(** Lines 86-91: the list comprehension; it raises when some
    [t.created_at] is [None], and then nothing is assigned. *)
Fixpoint tweets_data (ts : list raw_tweet) : result (list json) :=
  match ts with
  | [] => Val []
  | t :: rest =>
      match t_created_at t with
      | Some c =>
          match tweets_data rest with
          | Val more => Val (tweet_data t c :: more)
          | Exn ex => Exn ex
          end
      | None => Exn AttributeError
      end
  end.

(** Lines 69-100: the posts are fetched from the social API. *)
Definition fetch_fresh (e : env) (username : string) : prog bool :=
  returned <-
    try_except
      (record (GetUser username) ;;;
       user <- await (get_user e username) ;;
       match user with
       | None => ret (Some false)
       | Some id =>
           record (GetUsersTweets id) ;;;
           tl <- await (get_users_tweets e id) ;;
           match data tl with
           | Some ((_ :: _) as ts) =>
               posts <- lift (tweets_data ts) ;;
               modify (set_tweets (JArr posts)) ;;;
               save_tweets_to_cache e username (JArr posts) ;;;
               ret (Some true)
           | _ => ret None
           end
       end)
      (λ ex,
         print (Report "[red]Error: " ex "[/red]") ;;;
         ret (Some false)) ;;
  ret (default false returned).

Definition fetch_tweets (e : env) (username : string) : prog bool :=
  cached <- load_cached_tweets e username ;;
  served <- match cached with
            | Some (cached_tweets, cache_time) =>
                if truthy cached_tweets then
                  modify (set_tweets cached_tweets) ;;;
                  print (Line ("[green]Using cached tweets from "
                                 +:+ strftime L cache_time +:+ "[/green]")) ;;;
                  ret true
                else ret false
            | None => ret false
            end ;;
  if served : bool then ret true else fetch_fresh e username.

(** ** Prompt builder (lines 110-135) *)

Definition system_content : string :=
  "You are analyzing Twitter/X user activity. Focus on key patterns in behavior, interests, and communication style. Provide concise, data-driven insights based only on the provided tweets.".

Definition build_messages (u : option string) (posts : json) (question : string)
  : list message :=
  [ mkMessage "system" system_content;
    mkMessage "user"
      ("Based on these tweets from @" +:+ str_username u +:+ ", " +:+ question
         +:+ nl +:+ nl +:+ "Tweets:" +:+ nl +:+ dumps_indent L 0 posts) ].

Definition build_request (u : option string) (posts : json)
    (question : string) (model : string) : chat_request :=
  mkChatRequest model (build_messages u posts question) (7 # 10) 1000.

Definition endpoint : string := "https://openrouter.ai/api/v1/chat/completions".

Definition request_headers (key : string) : list (string * string) :=
  [ ("Authorization", "Bearer " +:+ key);
    ("HTTP-Referer", "https://github.com/your-repo");
    ("X-Title", "Twitter Analyzer");
    ("Content-Type", "application/json") ].

(** [response.json()['choices'][0]['message']['content']], then
    [Markdown(analysis)], which wants a string. *)
Definition analysis_of (r : response) : result string :=
  match body_json r with
  | None => Exn JSONDecodeError
  | Some j =>
      match subscript j "choices" with
      | Exn ex => Exn ex
      | Val choices =>
          match subscript0 choices with
          | Exn ex => Exn ex
          | Val choice =>
              match subscript choice "message" with
              | Exn ex => Exn ex
              | Val msg =>
                  match subscript msg "content" with
                  | Exn ex => Exn ex
                  | Val (JStr analysis) => Val analysis
                  | Val _ => Exn TypeError
                  end
              end
          end
      end
  end.

Definition default_model : string := "anthropic/claude-3-sonnet".

Definition analyse_with_openrouter (e : env) (question : string)
    (model : string) : prog unit :=
  ts <- gets tweets ;;
  if negb (truthy ts) then
    print (Line "[yellow]No tweets loaded.[/yellow]")
  else
    u <- gets username ;;
    key <- gets openrouter_key ;;
    let payload := build_request u ts question model in
    try_except
      (record (HttpPost endpoint (request_headers key) payload) ;;;
       response <- await (http_post e endpoint payload) ;;
       if bool_decide (status_code response = 200) then
         analysis <- lift (analysis_of response) ;;
         print (Panel "Analysis" analysis)
       else
         print (Line ("[red]Error " +:+ pretty (status_code response) +:+ ": "
                        +:+ body response +:+ "[/red]")))
      (λ ex, print (Report "[red]Error: " ex "[/red]")).
End WithLib.
End OpenRouter.

(** * A reference instance of the library functions

    [cpython] renders and reads the timestamps the scripts write
    ([YYYY-MM-DDTHH:MM:SS], followed by [.ffffff] when the microseconds are
    not zero), counting microseconds from 0001-01-01T00:00:00.  It is used
    to run the scripts on concrete inputs. *)

Module Ref.

(** The date of a day number ([0] is 0001-01-01), in the proleptic
    Gregorian calendar. *)
Definition civil_from_days (z0 : Z) : Z * Z * Z :=
  let z := z0 + 306 in
  let era := z / 146097 in
  let doe := z - era * 146097 in
  let yoe := (doe - doe / 1460 + doe / 36524 - doe / 146096) / 365 in
  let doy := doe - (365 * yoe + yoe / 4 - yoe / 100) in
  let mp := (5 * doy + 2) / 153 in
  let d := doy - (153 * mp + 2) / 5 + 1 in
  let m := if mp <? 10 then mp + 3 else mp - 9 in
  let y := yoe + era * 400 + (if m <=? 2 then 1 else 0) in
  (y, m, d).

Definition days_from_civil (y0 m d : Z) : Z :=
  let y := if m <=? 2 then y0 - 1 else y0 in
  let era := y / 400 in
  let yoe := y - era * 400 in
  let doy := (153 * (if m >? 2 then m - 3 else m + 9) + 2) / 5 + d - 1 in
  let doe := yoe * 365 + yoe / 4 - yoe / 100 + doy in
  era * 146097 + doe - 306.

(** The last [width] decimal digits of [n]. *)
Fixpoint digits (width : nat) (n : Z) : string :=
  match width with
  | O => ""
  | S w => digits w (n / 10) +:+ String (ascii_of_N (48 + Z.to_N (n mod 10))) ""
  end.

Definition second : Z := 1000000.

Definition clock_text (sep : string) (d : datetime) : string :=
  let '(y, m, dd) := civil_from_days (d / day) in
  let r := d mod day in
  digits 4 y +:+ "-" +:+ digits 2 m +:+ "-" +:+ digits 2 dd +:+ sep
    +:+ digits 2 (r / (3600 * second)) +:+ ":"
    +:+ digits 2 (r / (60 * second) mod 60) +:+ ":"
    +:+ digits 2 (r / second mod 60).

Definition isoformat (d : datetime) : string :=
  clock_text "T" d
    +:+ (if d mod second =? 0 then "" else "." +:+ digits 6 (d mod second)).

Definition strftime (d : datetime) : string := clock_text " " d.

Fixpoint number (acc : Z) (s : string) : option Z :=
  match s with
  | EmptyString => Some acc
  | String c rest =>
      let n := Z.of_N (N_of_ascii c) in
      if (48 <=? n) && (n <=? 57) then number (10 * acc + (n - 48)) rest
      else None
  end.

Definition field (s : string) (start len : nat) : option Z :=
  let part := String.substring start len s in
  if Nat.eqb (String.length part) len then number 0 part else None.

Definition fromisoformat (s : string) : option datetime :=
  y ← field s 0 4; m ← field s 5 2; d ← field s 8 2;
  h ← field s 11 2; mi ← field s 14 2; sec ← field s 17 2;
  us ← (if Nat.eqb (String.length s) 19 then Some 0
        else if String.eqb (String.substring 19 1 s) "."
                && Nat.eqb (String.length s) 26
             then field s 20 6 else None);
  if String.eqb (String.substring 4 1 s) "-"
     && String.eqb (String.substring 7 1 s) "-"
     && String.eqb (String.substring 10 1 s) "T"
     && String.eqb (String.substring 13 1 s) ":"
     && String.eqb (String.substring 16 1 s) ":"
     && (1 <=? m) && (m <=? 12) && (1 <=? d) && (d <=? 31)
     && (h <? 24) && (mi <? 60) && (sec <? 60)
  then Some (days_from_civil y m d * day
             + ((h * 60 + mi) * 60 + sec) * second + us)
  else None.

(** [repr] and [json.dumps] of a string of printable characters. *)
Fixpoint escape (quote : ascii) (s : string) : string :=
  match s with
  | EmptyString => ""
  | String c rest =>
      (if Ascii.eqb c quote || Ascii.eqb c "092"%char
       then String "092"%char (String c "") else String c "")
        +:+ escape quote rest
  end.

Definition repr_str (s : string) : string :=
  "'" +:+ escape "'"%char s +:+ "'".

Definition json_str (s : string) : string :=
  String "034"%char (escape "034"%char s) +:+ String "034"%char "".

(** The first bytes of a JPEG or of a PNG file. *)
Definition pil_accepts (b : string) : bool :=
  String.prefix (String "255"%char (String "216"%char "")) b
  || String.prefix (String "137"%char "PNG") b.

End Ref.

Definition cpython : pylib :=
  mkLib Ref.isoformat Ref.fromisoformat Ref.strftime Ref.repr_str
        Ref.json_str Ref.pil_accepts.


(** * Notions used to state the properties *)

(** The cache answers a fetch: the snapshot is read, is fresh, and holds
    posts. *)
Definition hit (cached : option (json * datetime)) : bool :=
  match cached with
  | Some (cached_tweets, _) => truthy cached_tweets
  | None => false
  end.

(** What reading the cache amounts to for a fetch: [true] when the cache
    answers it. *)
Definition served (r : result (option (json * datetime))) : bool :=
  match r with
  | Val cached => hit cached
  | Exn _ => false
  end.

(** A snapshot file is well formed for a script that keeps the time of the
    fetch under [stamp_key]: it is a JSON object with a timestamp that
    [fromisoformat] reads and with the posts. *)
Definition well_formed (L : pylib) (stamp_key : string) (f : file) : bool :=
  match f with
  | Doc (JObj fields) =>
      match assoc stamp_key fields, assoc "tweets" fields with
      | Some (JStr stamp), Some _ => bool_decide (is_Some (fromisoformat L stamp))
      | _, _ => false
      end
  | _ => false
  end.

(** The calls that reach an analysis back end. *)
Definition is_backend_call (c : call) : bool :=
  match c with
  | HttpPost _ _ _ | GenerateContent _ _ => true
  | _ => false
  end.

(** A download succeeds: the server answers 200 and the file is written. *)
Definition download_ok (e : env) (media_url : string) (tweet_id : Z) : bool :=
  match http_get e media_url with
  | Returns r =>
      bool_decide (status_code r = 200)
      && match disk_write e (media_file tweet_id) with
         | WriteOk => true
         | _ => false
         end
  | Raises _ => false
  end.

(** The URL the fetcher resolves a media key to, if any. *)
Definition media_url_of (media_lookup : gmap string media) (key : string)
  : option string :=
  match media_lookup !! key with
  | Some m =>
      let u := py_or (url m) (preview_image_url m) in
      if str_truthy u then u else None
  | None => None
  end.

(** The media keys of a tweet. *)
Definition media_keys_of (t : raw_tweet) : list string :=
  match t_attachments t with
  | Some attachments => default [] (assoc "media_keys" attachments)
  | None => []
  end.

(** The attachments of a tweet whose download succeeds, by their URLs. *)
Definition downloaded (e : env) (media_lookup : gmap string media)
    (t : raw_tweet) : list string :=
  filter (λ u, download_ok e u (t_id t) = true)
         (omap (media_url_of media_lookup) (media_keys_of t)).

(** The files after the downloads of one tweet, on a disk that takes the
    writes: each download writes its body over the file of the tweet. *)
Definition after_downloads (e : env) (tweet_id : Z) (urls : list string)
    (files : gmap string file) : gmap string file :=
  foldl (λ m u, match http_get e u with
                | Returns r => <[media_file tweet_id := Raw (body r)]> m
                | Raises _ => m
                end) files urls.

(** The post the multi-modal fetcher is expected to keep for a tweet: one
    media entry for each attachment whose download succeeds. *)
Definition expected_post (e : env) (media_lookup : gmap string media)
    (t : raw_tweet) : json :=
  Gemini.tweet_data t (default "" (t_created_at t))
    (map (λ _, media_file (t_id t)) (downloaded e media_lookup t)).

Definition has_created_at (t : raw_tweet) : bool :=
  bool_decide (is_Some (t_created_at t)).


(** What [clear_cache] keeps: the object, the calls, and the absence of the
    file at [path]. *)
Definition cleared (path : string) (s0 s : state) : Prop :=
  tweets s = tweets s0 ∧ username s = username s0
  ∧ calls s = calls s0 ∧ fs s !! path = None.

(** * Concrete inputs *)

Definition offline : env :=
  mkEnv 0 0
        (λ _, Raises (RemoteError "offline"))
        (λ _, Raises (RemoteError "offline"))
        (λ _, Raises (RemoteError "offline"))
        (λ _ _, Raises (RemoteError "offline"))
        (λ _ _, Raises (RemoteError "offline"))
        (λ _, WriteOk).

(** The same world at another time. *)
Definition at_time (t : datetime) (e : env) : env :=
  mkEnv t t (get_user e) (get_users_tweets e) (http_get e) (http_post e)
        (generate_content e) (disk_write e).

(** The same world with a disk that fails. *)
Definition with_disk (w : string → write_outcome) (e : env) : env :=
  mkEnv (now e) (now_saved e) (get_user e) (get_users_tweets e) (http_get e)
        (http_post e) (generate_content e) w.

(** The object after [__init__], with the given files on disk. *)
Definition fresh (files : gmap string file) : state :=
  mkState (JArr []) None "sk-or-key" files [] [].

(** 2024-03-05T14:07:09.000250 *)
Definition noon : datetime := 63845244429000250.

Definition metrics_of (likes replies retweets : Z) : json :=
  JObj [("like_count", JNum likes);
        ("reply_count", JNum replies);
        ("retweet_count", JNum retweets)].

Definition post1 : json :=
  JObj [("id", JNum 1); ("text", JStr "hello");
        ("created_at", JStr "2024-03-05T10:00:00+00:00");
        ("metrics", metrics_of 2 0 1);
        ("media", JArr [])].

Definition post2 : json :=
  JObj [("id", JNum 2); ("text", JStr "look");
        ("created_at", JStr "2024-03-05T11:00:00+00:00");
        ("metrics", metrics_of 5 1 0);
        ("media", JArr [JStr (media_file 2)])].

(** A snapshot of each script, written at [noon]. *)
Definition gemini_cached : gmap string file :=
  {[ cache_file "alice" := Doc (Gemini.snapshot cpython noon (JArr [post1])) ]}.

Definition openrouter_cached : gmap string file :=
  {[ cache_file "alice" := Doc (OpenRouter.snapshot cpython noon (JArr [post1])) ]}.

(** A cache file that is not JSON. *)
Definition garbled : gmap string file :=
  {[ cache_file "alice" := Raw "{ tweets: [" ]}.

(** A disk that fills up while a file is written. *)
Definition disk_full : string → write_outcome :=
  λ _, WriteTorn "{" (OSError "No space left on device").

Definition hour : Z := 3600 * 1000000.

(** The first bytes of a JPEG file, followed by [rest]. *)
Definition jpeg (rest : string) : string :=
  String "255"%char (String "216"%char rest).

(** A reply of the social API: three tweets, the second with one
    attachment, the third with two. *)
Definition tweet101 : raw_tweet :=
  mkRawTweet 101 "hello" (Some "2024-03-05T10:00:00+00:00")
             (metrics_of 2 0 1) None.
Definition tweet102 : raw_tweet :=
  mkRawTweet 102 "look" (Some "2024-03-05T11:00:00+00:00")
             (metrics_of 5 1 0) (Some [("media_keys", ["k1"])]).
Definition tweet103 : raw_tweet :=
  mkRawTweet 103 "two pictures" (Some "2024-03-05T12:00:00+00:00")
             (metrics_of 7 0 3) (Some [("media_keys", ["k2"; "k3"])]).

Definition alice_timeline : timeline :=
  mkTimeline (Some [tweet101; tweet102; tweet103])
             [ mkMedia "k1" (Some "https://pbs.example/a.jpg") None;
               mkMedia "k2" (Some "https://pbs.example/b.jpg") None;
               mkMedia "k3" None (Some "https://pbs.example/c.jpg") ].

(** A world at [noon] where the social API knows [alice], the server of the
    first picture answers 500, and the chat-completion endpoint answers
    429. *)
Definition online : env :=
  mkEnv noon noon
        (λ u, if String.eqb u "alice" then Returns (Some 42) else Returns None)
        (λ id, if id =? 42 then Returns alice_timeline
               else Raises (RemoteError "not found"))
        (λ u, if String.eqb u "https://pbs.example/a.jpg"
              then Returns (mkResponse 500 "Internal Server Error" None)
              else if String.eqb u "https://pbs.example/b.jpg"
              then Returns (mkResponse 200 (jpeg "b") None)
              else if String.eqb u "https://pbs.example/c.jpg"
              then Returns (mkResponse 200 (jpeg "c") None)
              else Raises (RemoteError "connection refused"))
        (λ _ _, Returns (mkResponse 429 "rate limited" None))
        (λ _ _, Returns "They post pictures.")
        (λ _, WriteOk).

(** The object with the posts of [alice] loaded. *)
Definition loaded (posts : json) (files : gmap string file) : state :=
  set_tweets posts (set_username (Some "alice") (fresh files)).


(** The network is down: an hour after [noon], 23 hours after, and a day
    after to the microsecond. *)
Definition an_hour_later : env := at_time (noon + hour) offline.
Definition almost_a_day_later : env := at_time (noon + 23 * hour) offline.
Definition a_day_later : env := at_time (noon + day) offline.

(** The object of each script after a fetch in the world [online], from an
    empty cache. *)
Definition gemini_fetched : state :=
  (Gemini.fetch_tweets cpython online "alice" false (fresh ∅)).2.
Definition openrouter_fetched : state :=
  (OpenRouter.fetch_tweets cpython online "alice" (fresh ∅)).2.

(** The object of the multi-modal script after the posts of [alice] were
    served from the snapshot of [gemini_cached]. *)
Definition gemini_served : state :=
  (Gemini.fetch_tweets cpython an_hour_later "alice" false
     (fresh gemini_cached)).2.

(** The same after a refresh with the network down. *)
Definition gemini_refreshed : result bool * state :=
  Gemini.refresh_tweets cpython an_hour_later gemini_served.

(** The state after a save over the snapshot of [gemini_cached] that the
    full disk interrupts. *)
Definition gemini_save_interrupted : state :=
  (Gemini.save_tweets_to_cache cpython (with_disk disk_full an_hour_later)
     "alice" (JArr [post2]) (fresh gemini_cached)).2.

(** * Further notions and inputs *)

(** The last character of a string. *)
Fixpoint final (s : string) : option ascii :=
  match s with
  | EmptyString => None
  | String c EmptyString => Some c
  | String _ rest => final rest
  end.

(** The files of [s'] are those of [s] outside of the media files. *)
Definition same_but_media (s s' : state) : Prop :=
  ∀ p, (∀ id, p ≠ media_file id) → fs s' !! p = fs s !! p.

(** A world where the social API knows [carol], who has posted nothing. *)
Definition silent_user : env :=
  mkEnv noon noon
        (λ _, Returns (Some 7))
        (λ _, Returns (mkTimeline None []))
        (λ _, Raises (RemoteError "offline"))
        (λ _ _, Raises (RemoteError "offline"))
        (λ _ _, Raises (RemoteError "offline"))
        (λ _, WriteOk).

(** A snapshot of another user. *)
Definition bob_cached : gmap string file :=
  {[ cache_file "bob" := Doc (Gemini.snapshot cpython noon (JArr [post2])) ]}.

(** A tweet that came without its creation time, and a reply of the social
    API with such a tweet in second place. *)
Definition tweet_undated : raw_tweet :=
  mkRawTweet 104 "undated" None (metrics_of 0 0 0) None.

Definition broken_reply : env :=
  mkEnv noon noon
        (λ _, Returns (Some 42))
        (λ _, Returns (mkTimeline (Some [tweet101; tweet_undated; tweet103]) []))
        (λ _, Raises (RemoteError "offline"))
        (λ _ _, Raises (RemoteError "offline"))
        (λ _ _, Raises (RemoteError "offline"))
        (λ _, WriteOk).



(** The world [online] on a disk where the cache file of [alice] cannot be
    opened for writing. *)
Definition read_only_cache : env :=
  with_disk (λ path, if String.eqb path (cache_file "alice")
                     then WriteRefused (OSError "Permission denied")
                     else WriteOk) online.



(** ** The request of the multi-modal back end, post by post *)

(** The image [load_image] returns for a media entry, given the files. *)
Definition image_at (L : pylib) (files : gmap string file) (image_path : json)
  : option string :=
  match image_path with
  | JStr p =>
      match files !! p with
      | Some (Raw b) => if pil_accepts L b then Some b else None
      | _ => None
      end
  | _ => None
  end.

(** A post the prompt builder can describe: it has a text, metrics with the
    three counts, and a media entry that is empty or can be gone through. *)
Definition post_ok (tweet : json) : bool :=
  match subscript tweet "text", subscript tweet "metrics",
        subscript tweet "media" with
  | Val _, Val metrics, Val attached =>
      match subscript metrics "like_count", subscript metrics "reply_count",
            subscript metrics "retweet_count" with
      | Val _, Val _, Val _ =>
          if truthy attached
          then match py_iter attached with Val _ => true | Exn _ => false end
          else true
      | _, _, _ => false
      end
  | _, _, _ => false
  end.

(** The lines of the prompt for one post. *)
Definition post_lines (L : pylib) (tweet : json) : string :=
  match subscript tweet "text", subscript tweet "metrics" with
  | Val text, Val metrics =>
      match subscript metrics "like_count", subscript metrics "reply_count",
            subscript metrics "retweet_count" with
      | Val likes, Val replies, Val retweets =>
          nl +:+ "Text: " +:+ py_str L text +:+ nl
            +:+ "Metrics: " +:+ py_str L likes +:+ " likes, "
            +:+ py_str L replies +:+ " replies, "
            +:+ py_str L retweets +:+ " retweets" +:+ nl
      | _, _, _ => ""
      end
  | _, _ => ""
  end.

(** The images of one post: those of its media entries that load. *)
Definition post_images (L : pylib) (files : gmap string file) (tweet : json)
  : list string :=
  match subscript tweet "media" with
  | Val attached =>
      if truthy attached
      then match py_iter attached with
           | Val media_paths => omap (image_at L files) media_paths
           | Exn _ => []
           end
      else []
  | Exn _ => []
  end.


(** A post whose metrics came without the count of the replies. *)
Definition post_without_replies : json :=
  JObj [("id", JNum 3); ("text", JStr "odd");
        ("created_at", JStr "2024-03-05T12:00:00+00:00");
        ("metrics", JObj [("like_count", JNum 1); ("retweet_count", JNum 0)]);
        ("media", JArr [])].


(** * The chat of the chat-completion script (lines 152-175)

    What the user types is given as the list of the values [Prompt.ask]
    returns, each with the world at that time; the prompts themselves,
    which [Prompt.ask] prints, and [console.clear()] are left out.  A loop
    that has used up the answers is [Waiting] for the next one. *)

Inductive ending : Type :=
| Returned
| Waiting.

(** [s.lower()] on the letters A to Z.  The other characters are kept:
    [str.lower] maps none of them to a letter of the word [quit]. *)
Definition ascii_lower (c : ascii) : ascii :=
  let n := N_of_ascii c in
  if ((65 <=? n) && (n <=? 90))%N then ascii_of_N (n + 32) else c.

Fixpoint lower (s : string) : string :=
  match s with
  | EmptyString => EmptyString
  | String c rest => String (ascii_lower c) (lower rest)
  end.

(** [s.strip('@')] *)
Fixpoint lstrip_at (s : string) : string :=
  match s with
  | EmptyString => EmptyString
  | String c rest => if Ascii.eqb c "@" then lstrip_at rest else s
  end.

Definition strip_at (s : string) : string :=
  String.rev (lstrip_at (String.rev (lstrip_at s))).

(** [len(v)] *)
Definition py_len (v : json) : result Z :=
  match v with
  | JArr items => Val (Z.of_nat (length items))
  | JObj fields => Val (Z.of_nat (length fields))
  | JStr s => Val (Z.of_nat (String.length s))
  | _ => Exn TypeError
  end.

Module Chat.
Section WithLib.
Context (L : pylib).

Definition is_quit (question : string) : bool :=
  String.eqb (lower question) "quit".

(** Lines 169-175: the [while True] loop. *)
Fixpoint ask_questions (answers : list (string * env)) : prog ending :=
  match answers with
  | [] => ret Waiting
  | (question, e) :: rest =>
      if is_quit question then ret Returned
      else
        OpenRouter.analyse_with_openrouter L e question OpenRouter.default_model ;;;
        ask_questions rest
  end.

Definition chat_loop (answers : list (string * env)) : prog ending :=
  print (Line (nl +:+ "[cyan]Ask any questions about these tweets (or type 'quit' to exit)[/cyan]")) ;;;
  ask_questions answers.

(** [handle] is what the user typed as the Twitter handle, and [e] the world
    during the fetch. *)
Definition start_chat (handle : string) (e : env)
    (answers : list (string * env)) : prog ending :=
  print (Line "[bold cyan]Twitter Analysis Chat[/bold cyan]") ;;;
  let username := strip_at handle in
  print (Line (nl +:+ "Checking tweets for [bold]@" +:+ username +:+ "[/bold]")) ;;;
  fetched <- OpenRouter.fetch_tweets L e username ;;
  if fetched : bool then
    ts <- gets tweets ;;
    n <- lift (py_len ts) ;;
    print (Line ("[green]Loaded " +:+ pretty n +:+ " tweets[/green]")) ;;;
    modify (set_username (Some username)) ;;;
    chat_loop answers
  else
    print (Line "[red]Failed to fetch tweets[/red]") ;;;
    ret Returned.
End WithLib.
End Chat.



(** The request of a question about the posts in memory. *)
Definition request_of (L : pylib) (s : state) (question : string) : call :=
  HttpPost OpenRouter.endpoint
    (OpenRouter.request_headers (openrouter_key s))
    (OpenRouter.build_request L (username s) (tweets s) question
       OpenRouter.default_model).

(** A world where the chat-completion endpoint answers. *)
Definition answering : env :=
  mkEnv (noon + hour) (noon + hour)
        (λ _, Raises (RemoteError "offline"))
        (λ _, Raises (RemoteError "offline"))
        (λ _, Raises (RemoteError "offline"))
        (λ _ _, Returns
           (mkResponse 200 "{...}"
              (Some (JObj [("choices",
                            JArr [JObj [("message",
                                         JObj [("role", JStr "assistant");
                                               ("content", JStr "Mostly greetings.")])];
                                  JObj [("message",
                                         JObj [("content", JStr "unused")])]])]))))
        (λ _ _, Raises (RemoteError "offline"))
        (λ _, WriteOk).

(** The state when [start_chat] calls [fetch_tweets]: the title and the
    handle have been printed. *)
Definition announced (handle : string) (s : state) : state :=
  add_output (Line (nl +:+ "Checking tweets for [bold]@" +:+ strip_at handle
                      +:+ "[/bold]"))
    (add_output (Line "[bold cyan]Twitter Analysis Chat[/bold cyan]") s).



(** The world [online] two days after [noon]. *)
Definition two_days_later : env := at_time (noon + 2 * day) online.

(** * Properties *)

(** Running a computation step by step: the definitions of the monad are
    unfolded, and [t] rewrites what is known of the state. *)
Ltac unfold_prog :=
  unfold bind, ret, raise, try_except, lift, gets, modify, print, record,
         await, exists_file, json_load in *.

Tactic Notation "run" "by" tactic3(t) :=
  unfold_prog; repeat (first [progress cbn | t]).

Ltac run := unfold_prog; cbn.

(** Case analysis on the innermost value a computation branches on. *)
Ltac break_inner :=
  match goal with
  | |- context [match ?x with _ => _ end] =>
      lazymatch x with
      | context [match _ with _ => _ end] => fail
      | _ => destruct x eqn:?
      end
  end.

Ltac cases := repeat (break_inner; cbn in * ).

Lemma bind_val {A B} (m : prog A) (k : A → prog B) s a s' :
  m s = (Val a, s') → bind m k s = k a s'.
Proof. unfold bind. by intros ->. Qed.

Lemma bind_exn {A B} (m : prog A) (k : A → prog B) s ex s' :
  m s = (Exn ex, s') → bind m k s = (Exn ex, s').
Proof. unfold bind. by intros ->. Qed.

Lemma try_val {A} (m : prog A) (h : exn → prog A) s a s' :
  m s = (Val a, s') → try_except m h s = (Val a, s').
Proof. unfold try_except. by intros ->. Qed.

Lemma try_exn {A} (m : prog A) (h : exn → prog A) s ex s' :
  m s = (Exn ex, s') → try_except m h s = h ex s'.
Proof. unfold try_except. by intros ->. Qed.

(** One step of a sequence whose first computation returns. *)
Ltac step :=
  cbn beta iota;
  erewrite bind_val by (first [reflexivity | eassumption]);
  cbn beta iota.

Example ref_isoformat :
  Ref.isoformat 63845244429000250 = "2024-03-05T14:07:09.000250"
  ∧ Ref.isoformat 63844847999000000 = "2024-02-29T23:59:59"
  ∧ Ref.fromisoformat "2024-03-05T14:07:09.000250" = Some 63845244429000250
  ∧ Ref.fromisoformat "2024-02-29T23:59:59" = Some 63844847999000000
  ∧ Ref.fromisoformat "yesterday" = None
  ∧ Ref.strftime 63845244429000250 = "2024-03-05 14:07:09".
Proof. vm_compute. repeat split. Qed.

(** ** Cache store: reading *)

Section Load.
Context (L : pylib).

(** A fresh, well-formed snapshot is served by the multi-modal script. *)
Lemma gemini_load_fresh e u s fields stamp t posts :
  fs s !! cache_file u = Some (Doc (JObj fields)) →
  assoc "timestamp" fields = Some (JStr stamp) →
  fromisoformat L stamp = Some t →
  now e - t < day →
  assoc "tweets" fields = Some posts →
  Gemini.load_cached_tweets L e u s = (Val (Some (posts, t)), s).
Proof.
  intros Hf Hs Ht Hfresh Hp. unfold Gemini.load_cached_tweets.
  run by (first [rewrite Hf | rewrite Hs | rewrite Ht | rewrite Hp
                | rewrite bool_decide_eq_true_2 by done]).
  done.
Qed.

(** A snapshot of 24 hours or more is not served by the multi-modal
    script. *)
Lemma gemini_load_expired e u s fields stamp t :
  fs s !! cache_file u = Some (Doc (JObj fields)) →
  assoc "timestamp" fields = Some (JStr stamp) →
  fromisoformat L stamp = Some t →
  day ≤ now e - t →
  Gemini.load_cached_tweets L e u s = (Val None, s).
Proof.
  intros Hf Hs Ht Hold. unfold Gemini.load_cached_tweets.
  run by (first [rewrite Hf | rewrite Hs | rewrite Ht
                | rewrite bool_decide_eq_false_2 by lia]).
  done.
Qed.

(** The multi-modal script never raises when it reads the cache, and
    changes nothing but the console. *)
Lemma gemini_load_total e u s :
  ∃ cached warnings,
    Gemini.load_cached_tweets L e u s = (Val cached, add_outputs warnings s).
Proof.
  assert (Hid : ∀ s0 : state, s0 = add_outputs [] s0).
  { intros [? ? ? ? ? ?]. unfold add_outputs. cbn. by rewrite app_nil_r. }
  unfold Gemini.load_cached_tweets. run.
  cases; try (eexists _, []; f_equal; apply Hid);
    try (eexists _, [_]; reflexivity).
Qed.

(** A malformed snapshot is a miss for the multi-modal script. *)
Lemma gemini_load_malformed e u s f :
  fs s !! cache_file u = Some f →
  well_formed L "timestamp" f = false →
  ∃ warnings,
    Gemini.load_cached_tweets L e u s = (Val None, add_outputs warnings s).
Proof.
  intros Hf Hbad.
  destruct (gemini_load_total e u s) as (cached & warnings & Heq).
  exists warnings. rewrite Heq. do 2 f_equal.
  revert Heq. unfold Gemini.load_cached_tweets, well_formed, parse_time in *.
  run by rewrite Hf.
  destruct f as [[]|]; cbn in *; try (intros; by simplify_eq).
  cases; intros; simplify_eq; try done.
  all: by match goal with H : bool_decide _ = false |- _ =>
            apply bool_decide_eq_false_1 in H; destruct H end.
Qed.

(** The chat-completion script serves a snapshot of up to 24 hours, the
    24th hour included. *)
Lemma openrouter_load_fresh e u s fields stamp t posts :
  fs s !! cache_file u = Some (Doc (JObj fields)) →
  assoc "cached_at" fields = Some (JStr stamp) →
  fromisoformat L stamp = Some t →
  now e - t ≤ day →
  assoc "tweets" fields = Some posts →
  OpenRouter.load_cached_tweets L e u s = (Val (Some (posts, t)), s).
Proof.
  intros Hf Hs Ht Hfresh Hp. unfold OpenRouter.load_cached_tweets.
  run by (first [rewrite Hf | rewrite Hs | rewrite Ht | rewrite Hp
                | rewrite bool_decide_eq_false_2 by lia]).
  done.
Qed.

Lemma openrouter_load_expired e u s fields stamp t :
  fs s !! cache_file u = Some (Doc (JObj fields)) →
  assoc "cached_at" fields = Some (JStr stamp) →
  fromisoformat L stamp = Some t →
  day < now e - t →
  OpenRouter.load_cached_tweets L e u s = (Val None, s).
Proof.
  intros Hf Hs Ht Hold. unfold OpenRouter.load_cached_tweets.
  run by (first [rewrite Hf | rewrite Hs | rewrite Ht
                | rewrite bool_decide_eq_true_2 by lia]).
  done.
Qed.

(** The chat-completion script changes nothing when it reads the cache,
    whether it returns or raises. *)
Lemma openrouter_load_frame e u s r s' :
  OpenRouter.load_cached_tweets L e u s = (r, s') → s' = s.
Proof.
  unfold OpenRouter.load_cached_tweets. run. cases; intros; by simplify_eq.
Qed.

(** A file that is not JSON makes the chat-completion script raise, out of
    [load_cached_tweets] and out of [fetch_tweets]. *)
Lemma openrouter_load_unparseable e u s bytes :
  fs s !! cache_file u = Some (Raw bytes) →
  OpenRouter.load_cached_tweets L e u s = (Exn JSONDecodeError, s)
  ∧ OpenRouter.fetch_tweets L e u s = (Exn JSONDecodeError, s).
Proof.
  intros Hf. unfold OpenRouter.fetch_tweets, OpenRouter.load_cached_tweets.
  split; run by rewrite Hf; done.
Qed.
End Load.

(** C2. A snapshot of 24 hours or more is to be absent.  The multi-modal
    script does so; the chat-completion script, on a snapshot written at
    [noon] and read exactly 24 hours later, returns its posts, and
    [fetch_tweets] serves them without a call to the network. *)
Theorem openrouter_serves_snapshot_at_24h :
  now a_day_later - noon = day
  ∧ OpenRouter.load_cached_tweets cpython a_day_later "alice"
      (fresh openrouter_cached)
    = (Val (Some (JArr [post1], noon)), fresh openrouter_cached)
  ∧ (∃ s', OpenRouter.fetch_tweets cpython a_day_later "alice"
             (fresh openrouter_cached) = (Val true, s')
           ∧ tweets s' = JArr [post1] ∧ calls s' = [])
  ∧ Gemini.load_cached_tweets cpython a_day_later "alice" (fresh gemini_cached)
    = (Val None, fresh gemini_cached).
Proof.
  split; [by vm_compute|]. split; [|split].
  - by vm_compute.
  - eexists. split; [by vm_compute|]. by split.
  - by vm_compute.
Qed.

(** C3. A malformed cache file is to be a miss, with a warning.  The
    multi-modal script does so; the chat-completion script reads the file
    outside of any [try], and the exception leaves [load_cached_tweets] and
    [fetch_tweets]: on a file that is not JSON, and on the snapshot that the
    multi-modal script writes for the same user, which keeps its time under
    another key. *)
Theorem openrouter_raises_on_malformed_cache :
  OpenRouter.load_cached_tweets cpython offline "alice" (fresh garbled)
    = (Exn JSONDecodeError, fresh garbled)
  ∧ OpenRouter.fetch_tweets cpython offline "alice" (fresh garbled)
    = (Exn JSONDecodeError, fresh garbled)
  ∧ OpenRouter.fetch_tweets cpython an_hour_later "alice" (fresh gemini_cached)
    = (Exn (KeyError (JStr "cached_at")), fresh gemini_cached)
  ∧ Gemini.load_cached_tweets cpython offline "alice" (fresh garbled)
    = (Val None,
       add_outputs [Report "[yellow]Warning: Failed to load cache: "
                           JSONDecodeError "[/yellow]"] (fresh garbled)).
Proof.
  split; [|split; [|split]].
  - by apply openrouter_load_unparseable with (bytes := "{ tweets: [").
  - by apply openrouter_load_unparseable with (bytes := "{ tweets: [").
  - by vm_compute.
  - by vm_compute.
Qed.

(** ** Cache store: writing *)

Section Save.
Context (L : pylib).

Lemma write_file_run e path content s :
  write_file e path content s
  = match disk_write e path with
    | WriteOk => (Val tt, set_fs (<[path := content]> (fs s)) s)
    | WriteRefused ex => (Exn ex, s)
    | WriteTorn written ex =>
        (Exn ex, set_fs (<[path := Raw written]> (fs s)) s)
    end.
Proof. unfold write_file. by destruct (disk_write e path). Qed.

(** What is left of a torn write is a miss for the multi-modal script and
    an exception for the chat-completion script. *)
Lemma torn_file_not_served e u s written :
  fs s !! cache_file u = Some (Raw written) →
  (∃ warnings,
     Gemini.load_cached_tweets L e u s = (Val None, add_outputs warnings s))
  ∧ OpenRouter.load_cached_tweets L e u s = (Exn JSONDecodeError, s).
Proof.
  intros Hf. split.
  - by apply gemini_load_malformed with (f := Raw written).
  - by eapply openrouter_load_unparseable.
Qed.
End Save.

(** C4, as the code has it.  [save_tweets_to_cache] writes over the
    snapshot file in place.  When the write goes through, the file holds the
    new snapshot.  When the file cannot be opened, it is left as it was.
    When the write fails partway, what the file held is lost, and what is
    left is not served as a snapshot: the multi-modal script reads it as a
    miss, the chat-completion script raises on it.  The multi-modal script
    swallows the failure; the chat-completion script raises it. *)
Theorem save_overwrites_in_place (L : pylib) (e : env) (u : string)
    (posts : json) (s : state) :
  let path := cache_file u in
  (∃ s', Gemini.save_tweets_to_cache L e u posts s = (Val tt, s')
     ∧ match disk_write e path with
       | WriteOk =>
           fs s' = <[path := Doc (Gemini.snapshot L (now_saved e) posts)]> (fs s)
       | WriteRefused _ => fs s' = fs s
       | WriteTorn written _ =>
           fs s' = <[path := Raw written]> (fs s)
           ∧ ∀ e', ∃ warnings,
               Gemini.load_cached_tweets L e' u s'
               = (Val None, add_outputs warnings s')
       end)
  ∧ (∃ r s', OpenRouter.save_tweets_to_cache L e u posts s = (r, s')
     ∧ match disk_write e path with
       | WriteOk =>
           r = Val tt
           ∧ fs s' = <[path := Doc (OpenRouter.snapshot L (now_saved e) posts)]> (fs s)
       | WriteRefused ex => r = Exn ex ∧ fs s' = fs s
       | WriteTorn written ex =>
           r = Exn ex
           ∧ fs s' = <[path := Raw written]> (fs s)
           ∧ ∀ e', OpenRouter.load_cached_tweets L e' u s'
                   = (Exn JSONDecodeError, s')
       end).
Proof.
  cbn zeta. split.
  - unfold Gemini.save_tweets_to_cache, try_except.
    rewrite write_file_run.
    destruct (disk_write e (cache_file u)) as [|ex|written ex]; cbn.
    + by eexists.
    + by eexists.
    + eexists. split; [done|]. split; [done|].
      intros e'. eapply torn_file_not_served. cbn. apply lookup_insert_eq.
  - unfold OpenRouter.save_tweets_to_cache. rewrite write_file_run.
    destruct (disk_write e (cache_file u)) as [|ex|written ex];
      eexists _, _; (split; [done|]); repeat split.
    intros e'.
    apply (proj2 (torn_file_not_served L e' u _ written (lookup_insert_eq _ _ _))).
Qed.

(** C4, as stated, fails.  A snapshot written at [noon] is served an hour
    later; a save that is interrupted by a full disk leaves the file with
    the one character that was written, and the snapshot is gone. *)
Lemma failed_save_loses_snapshot :
  (Gemini.load_cached_tweets cpython an_hour_later "alice"
     (fresh gemini_cached)).1
    = Val (Some (JArr [post1], noon))
  ∧ fs gemini_save_interrupted !! cache_file "alice" = Some (Raw "{")
  ∧ (Gemini.load_cached_tweets cpython an_hour_later "alice"
       gemini_save_interrupted).1 = Val None.
Proof. repeat split; by vm_compute. Qed.

(** ** Post fetcher of the multi-modal script *)

Lemma path_join_nonempty dir name : dir ≠ "" → path_join dir name ≠ "".
Proof.
  intros Hdir. unfold path_join.
  destruct name as [|c rest]; [by destruct dir|].
  destruct c as [[] [] [] [] [] [] [] []]; try done; by destruct dir.
Qed.

Lemma media_file_truthy id : str_truthy (Some (media_file id)) = true.
Proof.
  cbn. apply negb_true_iff, String.eqb_neq, path_join_nonempty.
  by vm_compute.
Qed.

Section GeminiFetch.
Context (L : pylib) (e : env).

(** A download returns the path of the tweet when it succeeds and [None]
    when it fails; it raises in neither case, and a success leaves the
    body of the response in the file of the tweet. *)
Lemma download_media_run media_url id s :
  ∃ s',
    Gemini.download_media e media_url id s
    = (Val (if download_ok e media_url id then Some (media_file id) else None), s')
    ∧ tweets s' = tweets s
    ∧ (download_ok e media_url id = true →
       ∃ r, http_get e media_url = Returns r
            ∧ fs s' = <[media_file id := Raw (body r)]> (fs s))
    ∧ (download_ok e media_url id = false →
       disk_write e (media_file id) = WriteOk → fs s' = fs s).
Proof.
  unfold Gemini.download_media, download_ok. run.
  destruct (http_get e media_url) as [r|ex]; cbn; [|by eexists].
  destruct (bool_decide (status_code r = 200)); cbn; [|by eexists].
  rewrite write_file_run.
  destruct (disk_write e (media_file id)); cbn; eexists; (split; [done|]);
    (split; [done|]); try done.
  split; [|done]. intros _. by exists r.
Qed.

Lemma after_downloads_cons id u urls files r :
  http_get e u = Returns r →
  after_downloads e id urls (<[media_file id := Raw (body r)]> files)
  = after_downloads e id (u :: urls) files.
Proof. intros Hu. unfold after_downloads. cbn. by rewrite Hu. Qed.

(** The file of the tweet ends with the body of the last download. *)
Lemma after_downloads_last id urls files u r :
  last urls = Some u →
  http_get e u = Returns r →
  after_downloads e id urls files !! media_file id = Some (Raw (body r)).
Proof.
  intros Hlast Hu. unfold after_downloads.
  destruct urls as [|v urls'] using rev_ind; [done|].
  rewrite last_snoc in Hlast. simplify_eq.
  rewrite foldl_app. cbn. rewrite Hu. apply lookup_insert_eq.
Qed.

Lemma collect_media_run media_lookup t keys : ∀ s,
  ∃ s',
    Gemini.collect_media e media_lookup (t_id t) keys s
    = (Val (map (λ _, media_file (t_id t))
                (filter (λ u, download_ok e u (t_id t) = true)
                        (omap (media_url_of media_lookup) keys))), s')
    ∧ tweets s' = tweets s
    ∧ (disk_write e (media_file (t_id t)) = WriteOk →
       fs s' = after_downloads e (t_id t)
                 (filter (λ u, download_ok e u (t_id t) = true)
                         (omap (media_url_of media_lookup) keys))
                 (fs s)).
Proof.
  induction keys as [|key rest IH]; intros s; [by eexists|].
  cbn [Gemini.collect_media omap list_omap].
  assert (Hurl : media_url_of media_lookup key
                 = match media_lookup !! key with
                   | Some m =>
                       if str_truthy (py_or (url m) (preview_image_url m))
                       then py_or (url m) (preview_image_url m) else None
                   | None => None
                   end) by reflexivity.
  rewrite Hurl. clear Hurl.
  assert (Hskip : ∃ s',
    bind (ret None) (λ got : option string,
      bind (Gemini.collect_media e media_lookup (t_id t) rest) (λ more,
        ret (match got with
             | Some media_path =>
                 if str_truthy got then media_path :: more else more
             | None => more
             end))) s
    = (Val (map (λ _, media_file (t_id t))
                (filter (λ u, download_ok e u (t_id t) = true)
                        (omap (media_url_of media_lookup) rest))), s')
    ∧ tweets s' = tweets s
    ∧ (disk_write e (media_file (t_id t)) = WriteOk →
       fs s' = after_downloads e (t_id t)
                 (filter (λ u, download_ok e u (t_id t) = true)
                         (omap (media_url_of media_lookup) rest))
                 (fs s))).
  { destruct (IH s) as (s' & Hrest & ? & ?). exists s'. split; [|done].
    erewrite bind_val by reflexivity. by erewrite bind_val by exact Hrest. }
  destruct (media_lookup !! key) as [m|]; [|exact Hskip].
  destruct (py_or (url m) (preview_image_url m)) as [u|] eqn:Hu;
    [|exact Hskip].
  destruct (str_truthy (Some u)) eqn:Hempty; [|exact Hskip].
  destruct (download_media_run u (t_id t) s)
    as (s1 & Hget & Ht & Hwritten & Hkept).
  destruct (IH s1) as (s' & Hrest & ? & Hfiles). exists s'.
  erewrite bind_val by exact Hget. erewrite bind_val by exact Hrest.
  cbn [mjoin fmap list_fmap]. rewrite filter_cons.
  destruct (download_ok e u (t_id t)) eqn:Hok.
  - rewrite decide_True by done. rewrite media_file_truthy.
    split; [done|]. split; [congruence|]. intros Hdisk.
    destruct (Hwritten eq_refl) as (r & Hr & Hfs1).
    rewrite (Hfiles Hdisk), Hfs1. by apply after_downloads_cons.
  - rewrite decide_False by done.
    split; [done|]. split; [congruence|]. intros Hdisk.
    by rewrite (Hfiles Hdisk), (Hkept eq_refl Hdisk).
Qed.

Lemma add_tweet_run media_lookup t s items :
  tweets s = JArr items →
  ∃ s',
    Gemini.add_tweet e media_lookup t s
    = (if has_created_at t then Val tt else Exn AttributeError, s')
    ∧ (has_created_at t = true →
       tweets s' = JArr (items ++ [expected_post e media_lookup t])).
Proof.
  intros Hitems. unfold Gemini.add_tweet, has_created_at, expected_post.
  destruct (t_created_at t) as [c|] eqn:Hc; cbn [bool_decide default];
    [|by eexists].
  erewrite bind_val by reflexivity.
  assert (Hpaths : ∃ s1,
    match t_attachments t with
    | Some ((_ :: _) as attachments) =>
        Gemini.collect_media e media_lookup (t_id t)
          (default [] (assoc "media_keys" attachments))
    | _ => ret []
    end s
    = (Val (map (λ _, media_file (t_id t)) (downloaded e media_lookup t)), s1)
    ∧ tweets s1 = tweets s).
  { unfold downloaded, media_keys_of.
    destruct (t_attachments t) as [[|a rest]|]; try by eexists.
    destruct (collect_media_run media_lookup t
                (default [] (assoc "media_keys" (a :: rest))) s)
      as (s1 & ? & ? & _).
    by exists s1. }
  destruct Hpaths as (s1 & Hpaths & Hs1).
  erewrite bind_val by exact Hpaths.
  unfold append_tweet. rewrite Hs1, Hitems. eexists. split; [done|].
  by intros _.
Qed.

(** Every tweet of the reply is kept, in order, unless a tweet without a
    creation time ends the loop. *)
Lemma for_each_add_tweet media_lookup ts : ∀ s items,
  tweets s = JArr items →
  ∃ s',
    for_each ts (Gemini.add_tweet e media_lookup) s
    = (if forallb has_created_at ts then Val tt else Exn AttributeError, s')
    ∧ (forallb has_created_at ts = true →
       tweets s' = JArr (items ++ map (expected_post e media_lookup) ts)).
Proof.
  induction ts as [|t rest IH]; intros s items Hitems.
  - exists s. split; [done|]. by rewrite app_nil_r.
  - cbn [for_each forallb map].
    destruct (add_tweet_run media_lookup t s items Hitems) as (s1 & Hadd & Hs1).
    destruct (has_created_at t); cbn [andb].
    + erewrite bind_val by exact Hadd.
      destruct (IH s1 _ (Hs1 eq_refl)) as (s' & Hrest & Hs').
      exists s'. split; [done|]. intros Hall.
      rewrite (Hs' Hall). by rewrite <- app_assoc.
    + erewrite bind_exn by exact Hadd. by eexists.
Qed.

Lemma gemini_save_run u posts s :
  ∃ s',
    Gemini.save_tweets_to_cache L e u posts s = (Val tt, s')
    ∧ tweets s' = tweets s
    ∧ (disk_write e (cache_file u) = WriteOk →
       fs s' = <[cache_file u := Doc (Gemini.snapshot L (now_saved e) posts)]> (fs s)).
Proof.
  unfold Gemini.save_tweets_to_cache, try_except. rewrite write_file_run.
  destruct (disk_write e (cache_file u)); cbn; by eexists.
Qed.


(** When the social API returns posts, they are all kept and stored. *)
Lemma gemini_fetch_fresh_ok u s id tl ts :
  get_user e u = Returns (Some id) →
  get_users_tweets e id = Returns tl →
  data tl = Some ts →
  ts ≠ [] →
  forallb has_created_at ts = true →
  ∃ s',
    Gemini.fetch_fresh L e u s = (Val true, s')
    ∧ tweets s' = JArr (map (expected_post e (Gemini.media_lookup_of (includes_media tl))) ts)
    ∧ (disk_write e (cache_file u) = WriteOk →
       fs s' !! cache_file u
       = Some (Doc (Gemini.snapshot L (now_saved e) (tweets s')))).
Proof.
  intros Huser Htl Hdata Hne Hall. unfold Gemini.fetch_fresh.
  set (lookup := Gemini.media_lookup_of (includes_media tl)).
  destruct (for_each_add_tweet lookup ts
              (set_tweets (JArr []) (add_call (GetUsersTweets id)
                                       (add_call (GetUser u) s))) []
              eq_refl) as (s1 & Hloop & Hs1).
  rewrite Hall in Hloop. specialize (Hs1 Hall). cbn [app] in Hs1.
  destruct (gemini_save_run u (tweets s1) s1) as (s2 & Hsave & Hs2 & Hfile).
  exists s2. split; [|split].
  - rewrite (bind_val _ _ _ (Some true) s2); [reflexivity|]. apply try_val.
    step. rewrite Huser. step. step. rewrite Htl. step. rewrite Hdata.
    destruct ts as [|t rest]; [done|].
    step. step. step. by step.
  - congruence.
  - intros Hok. rewrite (Hfile Hok), Hs2. apply lookup_insert_eq.
Qed.

(** [fetch_fresh] returns [True] only when the social API returned posts,
    each with its creation time. *)
Lemma gemini_fetch_fresh_true u s s' :
  Gemini.fetch_fresh L e u s = (Val true, s') →
  ∃ id tl ts,
    get_user e u = Returns (Some id)
    ∧ get_users_tweets e id = Returns tl
    ∧ data tl = Some ts ∧ ts ≠ []
    ∧ forallb has_created_at ts = true.
Proof.
  unfold Gemini.fetch_fresh. intros Hrun. revert Hrun. run.
  destruct (get_user e u) as [[id|]|] eqn:Huser; cbn;
    try (intros; by simplify_eq).
  destruct (get_users_tweets e id) as [tl|] eqn:Htl; cbn;
    try (intros; by simplify_eq).
  destruct (data tl) as [[|t rest]|] eqn:Hdata; cbn;
    try (intros; by simplify_eq).
  intros Hrun. exists id, tl, (t :: rest). repeat split; try done.
  set (lookup := Gemini.media_lookup_of (includes_media tl)) in *.
  destruct (for_each_add_tweet lookup (t :: rest)
              (set_tweets (JArr []) (add_call (GetUsersTweets id)
                                       (add_call (GetUser u) s))) []
              eq_refl) as (s1 & Hloop & _).
  destruct (forallb has_created_at (t :: rest)); [done|].
  cbn [for_each] in Hloop. rewrite Hloop in Hrun. by simplify_eq.
Qed.

(** When a call to the social API raises, [fetch_fresh] returns [False]
    and touches neither the files nor the posts in memory. *)
Lemma gemini_fetch_fresh_api_raises u s ex :
  get_user e u = Raises ex
  ∨ (∃ id, get_user e u = Returns (Some id)
           ∧ get_users_tweets e id = Raises ex) →
  ∃ s',
    Gemini.fetch_fresh L e u s = (Val false, s')
    ∧ fs s' = fs s ∧ tweets s' = tweets s
    ∧ last (console s') = Some (Report "[red]Error: " ex "[/red]").
Proof.
  unfold Gemini.fetch_fresh.
  intros [Huser|(id & Huser & Htl)]; run; rewrite Huser; cbn;
    [|rewrite Htl; cbn]; eexists; (split; [done|]); cbn;
    by rewrite last_snoc.
Qed.
End GeminiFetch.

Section GeminiFetchTweets.
Context (L : pylib) (e : env) (u : string).

Lemma add_outputs_nil s : add_outputs [] s = s.
Proof. destruct s. unfold add_outputs. cbn. by rewrite app_nil_r. Qed.

Lemma gemini_load_ignores_username x s :
  (Gemini.load_cached_tweets L e u (set_username x s)).1
  = (Gemini.load_cached_tweets L e u s).1.
Proof. unfold Gemini.load_cached_tweets. run. by cases. Qed.

(** [fetch_tweets] either serves the cache, without a call to the network
    and without a change on disk, or goes on to [fetch_fresh]. *)
Lemma gemini_fetch_cases force s :
  (∃ posts t w,
      force = false
      ∧ (Gemini.load_cached_tweets L e u s).1 = Val (Some (posts, t))
      ∧ truthy posts = true
      ∧ Gemini.fetch_tweets L e u force s
        = (Val true,
           add_outputs (w ++ [Line ("[green]Using cached tweets from "
                                      +:+ strftime L t +:+ "[/green]")])
             (set_tweets posts (set_username (Some u) s))))
  ∨ (∃ w,
      (force = true ∨ served (Gemini.load_cached_tweets L e u s).1 = false)
      ∧ Gemini.fetch_tweets L e u force s
        = Gemini.fetch_fresh L e u (add_outputs w (set_username (Some u) s))).
Proof.
  unfold Gemini.fetch_tweets. step.
  destruct force.
  { right. exists []. split; [by left|]. step. by rewrite add_outputs_nil. }
  pose proof (gemini_load_ignores_username (Some u) s) as Hsame.
  destruct (gemini_load_total L e u (set_username (Some u) s))
    as (cached & w & Hload).
  rewrite Hload in Hsame. cbn [fst] in Hsame.
  unfold modify at 1.
  destruct cached as [[posts t]|].
  - destruct (truthy posts) eqn:Htruthy.
    + left. exists posts, t, w. repeat split; try done.
      erewrite (bind_val _ _ _ true).
      2:{ step. rewrite Htruthy. step. step. reflexivity. }
      cbn. unfold add_outputs, set_tweets, add_output. cbn.
      by rewrite <- app_assoc.
    + right. exists w. split.
      { right. rewrite <- Hsame. cbn. done. }
      erewrite (bind_val _ _ _ false); [reflexivity|].
      step. by rewrite Htruthy.
  - right. exists w. split.
    { right. by rewrite <- Hsame. }
    erewrite (bind_val _ _ _ false); [reflexivity|]. by step.
Qed.

End GeminiFetchTweets.

(** ** Post fetcher of the chat-completion script *)

Section OpenRouterFetch.
Context (L : pylib) (e : env) (u : string).

Lemma tweets_data_nonempty t rest posts :
  OpenRouter.tweets_data (t :: rest) = Val posts → truthy (JArr posts) = true.
Proof.
  cbn. destruct (t_created_at t); [|done].
  destruct (OpenRouter.tweets_data rest); [|done]. by intros [= <-].
Qed.

(** [fetch_fresh] returns [True] only after the snapshot was written. *)
Lemma openrouter_fetch_fresh_true s s' :
  OpenRouter.fetch_fresh L e u s = (Val true, s') →
  fs s' !! cache_file u
    = Some (Doc (OpenRouter.snapshot L (now_saved e) (tweets s')))
  ∧ truthy (tweets s') = true.
Proof.
  unfold OpenRouter.fetch_fresh, OpenRouter.save_tweets_to_cache. run.
  destruct (get_user e u) as [[id|]|]; cbn; try (intros; by simplify_eq).
  destruct (get_users_tweets e id) as [tl|]; cbn; try (intros; by simplify_eq).
  destruct (data tl) as [[|t rest]|]; cbn -[OpenRouter.tweets_data];
    try (intros; by simplify_eq).
  destruct (OpenRouter.tweets_data (t :: rest)) as [posts|] eqn:Hposts;
    try (intros; by simplify_eq).
  unfold write_file. run.
  destruct (disk_write e (cache_file u)); cbn; intros; simplify_eq.
  cbn. split; [apply lookup_insert_eq|]. by eapply tweets_data_nonempty.
Qed.

(** When a call to the social API raises, [fetch_fresh] returns [False]
    and touches neither the files nor the posts in memory. *)
Lemma openrouter_fetch_fresh_api_raises s ex :
  get_user e u = Raises ex
  ∨ (∃ id, get_user e u = Returns (Some id)
           ∧ get_users_tweets e id = Raises ex) →
  ∃ s',
    OpenRouter.fetch_fresh L e u s = (Val false, s')
    ∧ fs s' = fs s ∧ tweets s' = tweets s
    ∧ last (console s') = Some (Report "[red]Error: " ex "[/red]").
Proof.
  unfold OpenRouter.fetch_fresh.
  intros [Huser|(id & Huser & Htl)]; run; rewrite Huser; cbn;
    [|rewrite Htl; cbn]; eexists; (split; [done|]); cbn;
    by rewrite last_snoc.
Qed.

(** [fetch_tweets] raises what reading the cache raises, or serves the
    cache, or goes on to [fetch_fresh]. *)
Lemma openrouter_fetch_cases s :
  (∃ ex, (OpenRouter.load_cached_tweets L e u s).1 = Exn ex
         ∧ OpenRouter.fetch_tweets L e u s = (Exn ex, s))
  ∨ (∃ posts t,
        (OpenRouter.load_cached_tweets L e u s).1 = Val (Some (posts, t))
        ∧ truthy posts = true
        ∧ OpenRouter.fetch_tweets L e u s
          = (Val true,
             add_output (Line ("[green]Using cached tweets from "
                                 +:+ strftime L t +:+ "[/green]"))
               (set_tweets posts s)))
  ∨ (∃ cached,
        (OpenRouter.load_cached_tweets L e u s).1 = Val cached
        ∧ hit cached = false
        ∧ OpenRouter.fetch_tweets L e u s = OpenRouter.fetch_fresh L e u s).
Proof.
  unfold OpenRouter.fetch_tweets.
  destruct (OpenRouter.load_cached_tweets L e u s) as [r s1] eqn:Hload.
  assert (s1 = s) as -> by by eapply openrouter_load_frame.
  destruct r as [[[posts t]|]|ex]; cbn [fst].
  - destruct (truthy posts) eqn:Htruthy.
    + right; left. exists posts, t. repeat split; try done.
      erewrite bind_val by exact Hload. cbn beta iota. rewrite Htruthy.
      erewrite (bind_val _ _ _ true); [reflexivity|]. step. by step.
    + right; right. exists (Some (posts, t)). repeat split; try done.
      erewrite bind_val by exact Hload. cbn beta iota. rewrite Htruthy.
      by step.
  - right; right. exists None. repeat split; try done.
    erewrite bind_val by exact Hload. by step.
  - left. exists ex. split; [done|]. by erewrite bind_exn by exact Hload.
Qed.
End OpenRouterFetch.

(** ** A second fetch within the freshness window *)

Section SecondFetch.
Context (L : pylib) (e1 e2 : env) (u : string).
Hypothesis Hstamp :
  fromisoformat L (isoformat L (now_saved e1)) = Some (now_saved e1).
Hypothesis Hwithin : now e2 - now_saved e1 < day.


End SecondFetch.



(** ** Media of the multi-modal script *)

Lemma map_const_replicate {A B} (y : B) (l : list A) :
  map (λ _, y) l = replicate (length l) y.
Proof. induction l as [|x l IH]; cbn; [done|]. by rewrite IH. Qed.




(** C10.  The file of a downloaded attachment is named after the tweet
    alone.  When some download of a tweet succeeds, the media list of the
    tweet is the one path [media_file (t_id t)], once for each download that
    succeeded, and the file at that path holds the body of the last of
    them: each download wrote over the one before. *)
Theorem media_entries_share_one_file (e : env) (media_lookup : gmap string media)
    (t : raw_tweet) (s : state) (u : string) (r : response) :
  last (downloaded e media_lookup t) = Some u →
  http_get e u = Returns r →
  ∃ s',
    Gemini.collect_media e media_lookup (t_id t) (media_keys_of t) s
    = (Val (replicate (length (downloaded e media_lookup t))
                      (media_file (t_id t))), s')
    ∧ fs s' !! media_file (t_id t) = Some (Raw (body r))
    ∧ subscript (expected_post e media_lookup t) "media"
      = Val (JArr (replicate (length (downloaded e media_lookup t))
                             (JStr (media_file (t_id t))))).
Proof.
  intros Hlast Hu.
  destruct (collect_media_run e media_lookup t (media_keys_of t) s)
    as (s' & Hrun & _ & Hfiles).
  exists s'. split; [|split].
  - rewrite Hrun. by rewrite map_const_replicate.
  - rewrite Hfiles.
    + by eapply after_downloads_last.
    + apply last_Some_elem_of in Hlast.
      apply list_elem_of_filter in Hlast as [Hok _].
      unfold download_ok in Hok. rewrite Hu in Hok.
      destruct (disk_write e (media_file (t_id t))); [done|..];
        by rewrite andb_false_r in Hok.
  - cbn. by rewrite map_const_replicate, fmap_replicate.
Qed.

(** Tweet 103 has two pictures: its media list is twice the same path, and
    the file holds the second picture. *)
Lemma media_entries_share_one_file_witness :
  ∃ s',
    Gemini.collect_media online
      (Gemini.media_lookup_of (includes_media alice_timeline))
      103 ["k2"; "k3"] (fresh ∅)
    = (Val [media_file 103; media_file 103], s')
    ∧ fs s' !! media_file 103 = Some (Raw (jpeg "c"))
    ∧ subscript (expected_post online
                   (Gemini.media_lookup_of (includes_media alice_timeline))
                   tweet103) "media"
      = Val (JArr [JStr (media_file 103); JStr (media_file 103)]).
Proof.
  apply (media_entries_share_one_file online
           (Gemini.media_lookup_of (includes_media alice_timeline))
           tweet103 (fresh ∅) "https://pbs.example/c.jpg"
           (mkResponse 200 (jpeg "c") None)).
  - vm_compute. reflexivity.
  - vm_compute. reflexivity.
Defined.

(** ** Refresh and failures of the social API *)

Lemma for_each_preserves {A} (P : state → Prop) (body : A → prog unit) items :
  (∀ x s r s', P s → body x s = (r, s') → P s') →
  ∀ s r s', P s → for_each items body s = (r, s') → P s'.
Proof.
  intros Hbody. induction items as [|x rest IH]; intros s r s' HP; cbn.
  - unfold ret. by intros [= _ <-].
  - unfold bind. destruct (body x s) as [[[]|ex] s1] eqn:Hx.
    + intros Hrest. eapply IH; [|exact Hrest]. by eapply Hbody.
    + intros [= _ <-]. by eapply Hbody.
Qed.

Section Refresh.
Context (L : pylib) (e : env).

Lemma unlink_quietly_cleared path s0 media_path s r s' :
  cleared path s0 s →
  Gemini.unlink_quietly media_path s = (r, s') → cleared path s0 s'.
Proof.
  intros (? & ? & ? & Habsent). unfold Gemini.unlink_quietly.
  destruct media_path; unfold ret, modify; intros [= _ <-]; try done.
  repeat split; try done. cbn. apply lookup_delete_None. by right.
Qed.

(** After [clear_cache] the snapshot of the user is gone. *)
Lemma clear_cache_run u s :
  is_Some (fs s !! cache_file u) →
  ∃ b s', Gemini.clear_cache u s = (Val b, s') ∧ cleared (cache_file u) s s'.
Proof.
  intros Hfile. unfold Gemini.clear_cache. unfold exists_file.
  erewrite bind_val by reflexivity. cbn beta.
  rewrite bool_decide_eq_true_2 by done.
  set (s1 := set_fs (delete (cache_file u) (fs s)) s).
  assert (H1 : cleared (cache_file u) s s1).
  { repeat split; try done. cbn. apply lookup_delete_eq. }
  unfold try_except. erewrite bind_val by reflexivity. cbn beta.
  erewrite bind_val by reflexivity. cbn beta. fold s1.
  unfold lift at 1. unfold bind at 1.
  destruct (py_iter (tweets s1)) as [items|ex]; cbn beta iota.
  2:{ eexists _, _. split; [reflexivity|]. by destruct H1 as (? & ? & ? & ?). }
  unfold bind at 1.
  match goal with |- context [for_each items ?body s1] =>
    destruct (for_each items body s1) as [[[]|ex] s2] eqn:Hloop;
    assert (H2 : cleared (cache_file u) s s2)
  end.
  1,3: (eapply for_each_preserves; [|exact H1|exact Hloop];
        intros tweet sa r sb Ha; unfold lift, bind;
        destruct (subscript tweet "media") as [paths|]; [|by intros [= _ <-]];
        destruct (py_iter paths) as [media_paths|]; [|by intros [= _ <-]];
        apply for_each_preserves; [|exact Ha];
        intros; by eapply unlink_quietly_cleared).
  - eexists _, _. split; [reflexivity|]. by destruct H2 as (? & ? & ? & ?).
  - eexists _, _. split; [reflexivity|]. by destruct H2 as (? & ? & ? & ?).
Qed.
End Refresh.

(** C5, as the code has it.  When a call to the social API (the lookup of
    the user or the request of the posts) raises, [fetch_tweets] returns
    [False], prints the error and leaves every file as it was, with or
    without [force_refresh], in both scripts.  [refresh_tweets] clears the
    cache before it fetches: after a refresh that fails in this way, the
    snapshot of the user is gone. *)
Theorem api_failure_leaves_files (L : pylib) (e : env) (u : string) (ex : exn) :
  get_user e u = Raises ex
  ∨ (∃ id, get_user e u = Returns (Some id)
           ∧ get_users_tweets e id = Raises ex) →
  (∀ force s,
      force = true ∨ served (Gemini.load_cached_tweets L e u s).1 = false →
      ∃ s', Gemini.fetch_tweets L e u force s = (Val false, s')
            ∧ fs s' = fs s
            ∧ last (console s') = Some (Report "[red]Error: " ex "[/red]"))
  ∧ (∀ s cached,
      (OpenRouter.load_cached_tweets L e u s).1 = Val cached →
      hit cached = false →
      ∃ s', OpenRouter.fetch_tweets L e u s = (Val false, s')
            ∧ fs s' = fs s
            ∧ last (console s') = Some (Report "[red]Error: " ex "[/red]"))
  ∧ (∀ s,
      username s = Some u → u ≠ "" → is_Some (fs s !! cache_file u) →
      ∃ s', Gemini.refresh_tweets L e s = (Val false, s')
            ∧ fs s' !! cache_file u = None).
Proof.
  intros Hraises. split; [|split].
  - intros force s Hmiss.
    destruct (gemini_fetch_cases L e u force s)
      as [(posts & t & w & -> & Hhit & Htruthy & _)|(w & _ & ->)].
    { destruct Hmiss as [?|Hmiss]; [done|].
      rewrite Hhit in Hmiss. cbn in Hmiss. congruence. }
    destruct (gemini_fetch_fresh_api_raises L e u
                (add_outputs w (set_username (Some u) s)) ex Hraises)
      as (s' & ? & ? & _ & ?).
    by exists s'.
  - intros s cached Hload Hmiss.
    destruct (openrouter_fetch_cases L e u s)
      as [(ex' & Hexn & _)|[(posts & t & Hhit & Htruthy & _)|(c & _ & _ & ->)]].
    + congruence.
    + rewrite Hload in Hhit. simplify_eq. cbn in Hmiss. congruence.
    + destruct (openrouter_fetch_fresh_api_raises L e u s ex Hraises)
        as (s' & ? & ? & _ & ?).
      by exists s'.
  - intros s Hname Hne Hfile. unfold Gemini.refresh_tweets.
    erewrite bind_val by reflexivity. cbn beta. rewrite Hname.
    assert (str_truthy (Some u) = true) as ->.
    { cbn. by apply negb_true_iff, String.eqb_neq. }
    erewrite bind_val by reflexivity. cbn beta.
    set (s0 := add_output _ s).
    destruct (clear_cache_run u s0) as (b & s1 & Hclear & _ & _ & _ & Hgone);
      [done|].
    erewrite bind_val by exact Hclear. cbn beta.
    destruct (gemini_fetch_cases L e u true s1)
      as [(posts & t & w & ? & _)|(w & _ & ->)]; [done|].
    destruct (gemini_fetch_fresh_api_raises L e u
                (add_outputs w (set_username (Some u) s1)) ex Hraises)
      as (s' & ? & Hfs & _ & _).
    exists s'. split; [done|]. by rewrite Hfs.
Qed.

Lemma api_failure_leaves_files_witness :
  (∃ s', Gemini.fetch_tweets cpython an_hour_later "alice" true
           (fresh gemini_cached) = (Val false, s')
         ∧ fs s' = gemini_cached
         ∧ last (console s')
           = Some (Report "[red]Error: " (RemoteError "offline") "[/red]"))
  ∧ (∃ s', OpenRouter.fetch_tweets cpython an_hour_later "alice" (fresh ∅)
           = (Val false, s')
           ∧ fs s' = ∅
           ∧ last (console s')
             = Some (Report "[red]Error: " (RemoteError "offline") "[/red]")).
Proof.
  destruct (api_failure_leaves_files cpython an_hour_later
              "alice" (RemoteError "offline")) as (Hg & Ho & _).
  - left. reflexivity.
  - split.
    + apply (Hg true (fresh gemini_cached)). left. reflexivity.
    + apply (Ho (fresh ∅) None); reflexivity.
Defined.

(** C5, as stated, fails.  The posts of [alice] are served from a snapshot
    an hour old; a refresh with the network down returns [False], and the
    snapshot is no longer on disk. *)
Lemma failed_refresh_loses_snapshot :
  fs gemini_served !! cache_file "alice"
    = Some (Doc (Gemini.snapshot cpython noon (JArr [post1])))
  ∧ tweets gemini_served = JArr [post1]
  ∧ gemini_refreshed.1 = Val false
  ∧ fs gemini_refreshed.2 !! cache_file "alice" = None.
Proof. repeat split; by vm_compute. Qed.

(** ** Analysis back ends *)

(** C7, as the code has it.  When no post is loaded, both scripts print
    that no tweets are loaded and return: no exception is raised, no
    request is built, and no call reaches the back end. *)
Theorem empty_collection_skips_backend (L : pylib) (e : env)
    (question model : string) (s : state) :
  truthy (tweets s) = false →
  Gemini.analyse_with_gemini L e question s
    = (Val tt, add_output (Line "[yellow]No tweets loaded.[/yellow]") s)
  ∧ OpenRouter.analyse_with_openrouter L e question model s
    = (Val tt, add_output (Line "[yellow]No tweets loaded.[/yellow]") s).
Proof.
  intros Hempty.
  unfold Gemini.analyse_with_gemini, OpenRouter.analyse_with_openrouter.
  split; erewrite bind_val by reflexivity; cbn beta; by rewrite Hempty.
Qed.

Lemma empty_collection_skips_backend_witness :
  (Gemini.analyse_with_gemini cpython online "what?" (fresh ∅)).1 = Val tt
  ∧ calls (Gemini.analyse_with_gemini cpython online "what?" (fresh ∅)).2 = []
  ∧ (OpenRouter.analyse_with_openrouter cpython online "what?"
       OpenRouter.default_model (fresh ∅)).1 = Val tt
  ∧ calls (OpenRouter.analyse_with_openrouter cpython online "what?"
             OpenRouter.default_model (fresh ∅)).2 = [].
Proof.
  destruct (empty_collection_skips_backend cpython online "what?"
              OpenRouter.default_model (fresh ∅)) as [Hg Ho].
  - reflexivity.
  - rewrite Hg, Ho. repeat split.
Defined.

(** C7, as stated, fails.  With an empty collection the back end is
    invoked by neither script, where the claim has it invoked once. *)
Lemma empty_collection_never_reaches_backend :
  tweets (fresh ∅) = JArr []
  ∧ length (filter (λ c, is_backend_call c = true)
              (calls (Gemini.analyse_with_gemini cpython online "what?"
                        (fresh ∅)).2)) ≠ 1%nat
  ∧ length (filter (λ c, is_backend_call c = true)
              (calls (OpenRouter.analyse_with_openrouter cpython online "what?"
                        OpenRouter.default_model (fresh ∅)).2)) ≠ 1%nat.
Proof. repeat split; by vm_compute. Qed.



(** ** Prompt builder *)

Section PromptBuilder.
Context (L : pylib).

Lemma add_outputs_app w1 w2 s :
  add_outputs w2 (add_outputs w1 s) = add_outputs (w1 ++ w2) s.
Proof. unfold add_outputs. cbn. by rewrite app_assoc. Qed.




End PromptBuilder.




(** * Further properties of the scripts *)

(** ** The cache store, written then read *)

(** X1.  What [save_tweets_to_cache] of the multi-modal script wrote is what
    [load_cached_tweets] returns within 24 hours: the same posts, whatever
    they are, and the time of the save.  The disk takes the write and
    [fromisoformat] reads what [isoformat] wrote. *)
Theorem gemini_save_then_load (L : pylib) (e e' : env) (u : string)
    (posts : json) (s : state) :
  disk_write e (cache_file u) = WriteOk →
  fromisoformat L (isoformat L (now_saved e)) = Some (now_saved e) →
  now e' - now_saved e < day →
  ∃ s',
    Gemini.save_tweets_to_cache L e u posts s = (Val tt, s')
    ∧ Gemini.load_cached_tweets L e' u s' = (Val (Some (posts, now_saved e)), s').
Proof.
  intros Hdisk Hstamp Hfresh.
  destruct (gemini_save_run L e u posts s) as (s' & Hsave & _ & Hfile).
  exists s'. split; [done|].
  eapply gemini_load_fresh; try done.
  - rewrite (Hfile Hdisk). apply lookup_insert_eq.
  - done.
  - done.
Qed.

Lemma gemini_save_then_load_witness :
  ∃ s',
    Gemini.save_tweets_to_cache cpython online "alice" (JArr [post1; post2])
      (fresh ∅) = (Val tt, s')
    ∧ Gemini.load_cached_tweets cpython almost_a_day_later "alice" s'
      = (Val (Some (JArr [post1; post2], noon)), s').
Proof.
  apply (gemini_save_then_load cpython online almost_a_day_later "alice"
           (JArr [post1; post2]) (fresh ∅)).
  - reflexivity.
  - vm_compute. reflexivity.
  - vm_compute. reflexivity.
Defined.

(** X2.  The same for the chat-completion script, which serves its snapshot up
    to the 24th hour included. *)
Theorem openrouter_save_then_load (L : pylib) (e e' : env) (u : string)
    (posts : json) (s : state) :
  disk_write e (cache_file u) = WriteOk →
  fromisoformat L (isoformat L (now_saved e)) = Some (now_saved e) →
  now e' - now_saved e ≤ day →
  ∃ s',
    OpenRouter.save_tweets_to_cache L e u posts s = (Val tt, s')
    ∧ OpenRouter.load_cached_tweets L e' u s'
      = (Val (Some (posts, now_saved e)), s').
Proof.
  intros Hdisk Hstamp Hfresh.
  unfold OpenRouter.save_tweets_to_cache. rewrite write_file_run, Hdisk.
  eexists. split; [done|].
  eapply openrouter_load_fresh; try done.
  - cbn. apply lookup_insert_eq.
  - done.
  - done.
Qed.

Lemma openrouter_save_then_load_witness :
  ∃ s',
    OpenRouter.save_tweets_to_cache cpython online "alice" (JArr [post1])
      (fresh ∅) = (Val tt, s')
    ∧ OpenRouter.load_cached_tweets cpython a_day_later "alice" s'
      = (Val (Some (JArr [post1], noon)), s').
Proof.
  apply (openrouter_save_then_load cpython online a_day_later "alice"
           (JArr [post1]) (fresh ∅)).
  - reflexivity.
  - vm_compute. reflexivity.
  - vm_compute. discriminate.
Defined.

(** X3.  The two scripts name the cache file of a user alike and keep the time
    of the fetch under different keys.  The snapshot one script saves is not
    one the other reads: the multi-modal script takes the snapshot of the
    chat-completion script for a miss, with a warning, and the
    chat-completion script raises [KeyError] on the snapshot of the
    multi-modal script, out of [fetch_tweets]. *)
Theorem snapshots_are_not_shared (L : pylib) (e e' : env) (u : string)
    (posts : json) (s : state) :
  disk_write e (cache_file u) = WriteOk →
  (∃ s', OpenRouter.save_tweets_to_cache L e u posts s = (Val tt, s')
         ∧ Gemini.load_cached_tweets L e' u s'
           = (Val None,
              add_outputs [Report "[yellow]Warning: Failed to load cache: "
                                  (KeyError (JStr "timestamp")) "[/yellow]"] s'))
  ∧ (∃ s', Gemini.save_tweets_to_cache L e u posts s = (Val tt, s')
           ∧ OpenRouter.load_cached_tweets L e' u s'
             = (Exn (KeyError (JStr "cached_at")), s')
           ∧ OpenRouter.fetch_tweets L e' u s'
             = (Exn (KeyError (JStr "cached_at")), s')).
Proof.
  intros Hdisk. split.
  - unfold OpenRouter.save_tweets_to_cache. rewrite write_file_run, Hdisk.
    eexists. split; [done|].
    unfold Gemini.load_cached_tweets.
    run by (rewrite lookup_insert_eq). done.
  - destruct (gemini_save_run L e u posts s) as (s' & Hsave & _ & Hfile).
    exists s'. split; [done|]. specialize (Hfile Hdisk).
    assert (Hload : OpenRouter.load_cached_tweets L e' u s'
                    = (Exn (KeyError (JStr "cached_at")), s')).
    { unfold OpenRouter.load_cached_tweets.
      run by (first [rewrite Hfile | rewrite lookup_insert_eq]). done. }
    split; [done|]. unfold OpenRouter.fetch_tweets.
    by erewrite bind_exn by exact Hload.
Qed.

Lemma snapshots_are_not_shared_witness :
  (OpenRouter.fetch_tweets cpython an_hour_later "alice"
     (Gemini.save_tweets_to_cache cpython online "alice" (JArr [post1])
        (fresh ∅)).2).1
  = Exn (KeyError (JStr "cached_at")).
Proof.
  destruct (snapshots_are_not_shared cpython online an_hour_later "alice"
              (JArr [post1]) (fresh ∅)) as [_ (s' & Hsave & _ & Hfetch)].
  - reflexivity.
  - rewrite Hsave. cbn [snd]. rewrite Hfetch. reflexivity.
Defined.

(** ** Fetches that bring nothing *)

Section NothingFetched.
Context (L : pylib) (e : env) (u : string).

Lemma gemini_fetch_fresh_unknown_user s :
  get_user e u = Returns None →
  Gemini.fetch_fresh L e u s
  = (Val false,
     add_output (Line "[red]User not found[/red]") (add_call (GetUser u) s)).
Proof. intros Huser. unfold Gemini.fetch_fresh. run by rewrite Huser. done. Qed.

Lemma openrouter_fetch_fresh_unknown_user s :
  get_user e u = Returns None →
  OpenRouter.fetch_fresh L e u s = (Val false, add_call (GetUser u) s).
Proof. intros Huser. unfold OpenRouter.fetch_fresh. run by rewrite Huser. done. Qed.

Lemma gemini_fetch_fresh_no_posts s id tl :
  get_user e u = Returns (Some id) →
  get_users_tweets e id = Returns tl →
  data tl = None ∨ data tl = Some [] →
  Gemini.fetch_fresh L e u s
  = (Val false, add_call (GetUsersTweets id) (add_call (GetUser u) s)).
Proof.
  intros Huser Htl Hdata. unfold Gemini.fetch_fresh.
  destruct Hdata as [Hdata|Hdata];
    run by (first [rewrite Huser | rewrite Htl | rewrite Hdata]); done.
Qed.

Lemma openrouter_fetch_fresh_no_posts s id tl :
  get_user e u = Returns (Some id) →
  get_users_tweets e id = Returns tl →
  data tl = None ∨ data tl = Some [] →
  OpenRouter.fetch_fresh L e u s
  = (Val false, add_call (GetUsersTweets id) (add_call (GetUser u) s)).
Proof.
  intros Huser Htl Hdata. unfold OpenRouter.fetch_fresh.
  destruct Hdata as [Hdata|Hdata];
    run by (first [rewrite Huser | rewrite Htl | rewrite Hdata]); done.
Qed.
End NothingFetched.

(** X4.  When the social API knows no such user, a fetch that is not served from
    the cache returns [False] after the one call of the lookup, and changes
    neither the files nor the posts in memory.  The multi-modal script says
    that the user was not found; the chat-completion script prints
    nothing. *)
Theorem unknown_user_is_reported_by_one_script (L : pylib) (e : env)
    (u : string) :
  get_user e u = Returns None →
  (∀ force s,
      force = true ∨ served (Gemini.load_cached_tweets L e u s).1 = false →
      ∃ s', Gemini.fetch_tweets L e u force s = (Val false, s')
            ∧ fs s' = fs s ∧ tweets s' = tweets s
            ∧ calls s' = calls s ++ [GetUser u]
            ∧ last (console s') = Some (Line "[red]User not found[/red]"))
  ∧ (∀ s cached,
      (OpenRouter.load_cached_tweets L e u s).1 = Val cached →
      hit cached = false →
      OpenRouter.fetch_tweets L e u s = (Val false, add_call (GetUser u) s)).
Proof.
  intros Huser. split.
  - intros force s Hmiss.
    destruct (gemini_fetch_cases L e u force s)
      as [(posts & t & w & -> & Hhit & Htruthy & _)|(w & _ & ->)].
    { destruct Hmiss as [?|Hmiss]; [done|].
      rewrite Hhit in Hmiss. cbn in Hmiss. congruence. }
    rewrite gemini_fetch_fresh_unknown_user by done.
    eexists. split; [done|]. cbn. repeat split; try done.
    by rewrite last_snoc.
  - intros s cached Hload Hmiss.
    destruct (openrouter_fetch_cases L e u s)
      as [(ex' & Hexn & _)|[(posts & t & Hhit & Htruthy & _)|(c & _ & _ & ->)]].
    + congruence.
    + rewrite Hload in Hhit. simplify_eq. cbn in Hmiss. congruence.
    + by apply openrouter_fetch_fresh_unknown_user.
Qed.

Lemma unknown_user_is_reported_by_one_script_witness :
  (∃ s', Gemini.fetch_tweets cpython online "bob" false (fresh ∅)
         = (Val false, s')
         ∧ fs s' = ∅ ∧ tweets s' = JArr []
         ∧ calls s' = [GetUser "bob"]
         ∧ last (console s') = Some (Line "[red]User not found[/red]"))
  ∧ OpenRouter.fetch_tweets cpython online "bob" (fresh ∅)
    = (Val false, add_call (GetUser "bob") (fresh ∅)).
Proof.
  destruct (unknown_user_is_reported_by_one_script cpython online "bob")
    as [Hg Ho].
  - reflexivity.
  - split.
    + apply (Hg false (fresh ∅)). right. reflexivity.
    + apply (Ho (fresh ∅) None); reflexivity.
Defined.

(** X5.  When the user has no post to return (no data, or an empty list), a
    fetch that is not served from the cache returns [False] in both scripts
    without a word on the console: nothing is written to disk and the posts
    in memory stay. *)
Theorem no_posts_fail_silently (L : pylib) (e : env) (u : string) (id : Z)
    (tl : timeline) :
  get_user e u = Returns (Some id) →
  get_users_tweets e id = Returns tl →
  data tl = None ∨ data tl = Some [] →
  (∀ s, Gemini.fetch_tweets L e u true s
        = (Val false,
           add_call (GetUsersTweets id)
             (add_call (GetUser u) (set_username (Some u) s))))
  ∧ (∀ s cached,
      (OpenRouter.load_cached_tweets L e u s).1 = Val cached →
      hit cached = false →
      OpenRouter.fetch_tweets L e u s
      = (Val false, add_call (GetUsersTweets id) (add_call (GetUser u) s))).
Proof.
  intros Huser Htl Hdata. split.
  - intros s. unfold Gemini.fetch_tweets. step. step.
    by eapply gemini_fetch_fresh_no_posts.
  - intros s cached Hload Hmiss.
    destruct (openrouter_fetch_cases L e u s)
      as [(ex' & Hexn & _)|[(posts & t & Hhit & Htruthy & _)|(c & _ & _ & ->)]].
    + congruence.
    + rewrite Hload in Hhit. simplify_eq. cbn in Hmiss. congruence.
    + by eapply openrouter_fetch_fresh_no_posts.
Qed.

Lemma no_posts_fail_silently_witness :
  Gemini.fetch_tweets cpython silent_user "carol" true (fresh gemini_cached)
  = (Val false,
     add_call (GetUsersTweets 7)
       (add_call (GetUser "carol")
          (set_username (Some "carol") (fresh gemini_cached))))
  ∧ OpenRouter.fetch_tweets cpython silent_user "carol" (fresh ∅)
    = (Val false, add_call (GetUsersTweets 7) (add_call (GetUser "carol") (fresh ∅))).
Proof.
  destruct (no_posts_fail_silently cpython silent_user "carol" 7
              (mkTimeline None [])) as [Hg Ho].
  - reflexivity.
  - reflexivity.
  - left. reflexivity.
  - split.
    + apply Hg.
    + apply (Ho (fresh ∅) None); reflexivity.
Defined.

(** ** What a fetch of the multi-modal script writes *)

Lemma final_app a b : b ≠ "" → final (a +:+ b) = final b.
Proof.
  intros Hb. induction a as [|c a IH]; [done|].
  change (String c a +:+ b) with (String c (a +:+ b)).
  cbn [final]. rewrite IH. destruct (a +:+ b) eqn:Hab; [|done].
  destruct a; [by destruct b|done].
Qed.

Lemma final_path_join dir name :
  name ≠ "" → final (path_join dir name) = final name.
Proof.
  intros Hname. unfold path_join. destruct name as [|c rest]; [done|].
  destruct c as [[] [] [] [] [] [] [] []]; try done;
    rewrite !final_app; done.
Qed.

(** The file of a picture is never the cache file of a user. *)
Lemma media_file_not_cache_file id u : media_file id ≠ cache_file u.
Proof.
  intros Heq. apply (f_equal final) in Heq. revert Heq.
  unfold media_file, cache_file.
  rewrite !final_path_join, !final_app; try done.
  - by destruct u.
  - by destruct (pretty id).
Qed.

Section GeminiFrame.
Context (L : pylib) (e : env).

Lemma download_media_frame media_url id s r s' :
  Gemini.download_media e media_url id s = (r, s') →
  ∀ p, p ≠ media_file id → fs s' !! p = fs s !! p.
Proof.
  unfold Gemini.download_media, write_file. run.
  cases; intros; simplify_eq; cbn; try done; by rewrite lookup_insert_ne.
Qed.

Lemma collect_media_frame media_lookup id keys : ∀ s r s',
  Gemini.collect_media e media_lookup id keys s = (r, s') →
  ∀ p, p ≠ media_file id → fs s' !! p = fs s !! p.
Proof.
  induction keys as [|key rest IH]; intros s r s'.
  { cbn. unfold ret. by intros [= _ <-]. }
  cbn [Gemini.collect_media]. unfold bind at 1.
  match goal with |- context [let (_, _) := ?m s in _] =>
    destruct (m s) as [[got|ex] s1] eqn:Hgot;
    assert (Hs1 : ∀ p, p ≠ media_file id → fs s1 !! p = fs s !! p)
  end.
  1,3: (destruct (media_lookup !! key) as [m|];
        [destruct (py_or (url m) (preview_image_url m)) as [v|];
         [destruct (str_truthy (Some v));
          [by eapply download_media_frame|]|]|];
        unfold ret in Hgot; by simplify_eq).
  - unfold bind.
    destruct (Gemini.collect_media e media_lookup id rest s1)
      as [[more|ex] s2] eqn:Hrest; unfold ret; intros [= _ <-] p Hp;
      rewrite (IH _ _ _ Hrest p Hp); by apply Hs1.
  - by intros [= _ <-].
Qed.

Lemma add_tweet_frame media_lookup t s r s' :
  Gemini.add_tweet e media_lookup t s = (r, s') → same_but_media s s'.
Proof.
  unfold Gemini.add_tweet. intros Hrun p Hp. revert Hrun.
  destruct (t_created_at t) as [c|].
  2:{ unfold bind, raise. by intros [= _ <-]. }
  erewrite bind_val by reflexivity. unfold bind at 1.
  match goal with |- context [let (_, _) := ?m s in _] =>
    destruct (m s) as [[paths|ex] s1] eqn:Hpaths;
    assert (Hs1 : fs s1 !! p = fs s !! p)
  end.
  1,3: (destruct (t_attachments t) as [[|a rest]|];
        try (unfold ret in Hpaths; by simplify_eq);
        by eapply collect_media_frame).
  - unfold append_tweet. destruct (tweets s1); intros [= _ <-]; by cbn.
  - by intros [= _ <-].
Qed.

Lemma for_each_add_tweet_frame media_lookup ts s r s' :
  for_each ts (Gemini.add_tweet e media_lookup) s = (r, s') →
  same_but_media s s'.
Proof.
  apply (for_each_preserves (same_but_media s)); [|done].
  intros t sa ra sb Ha Hstep p Hp.
  rewrite (add_tweet_frame _ _ _ _ _ Hstep p Hp). by apply Ha.
Qed.

(** [fetch_fresh] writes the cache file of the user and media files, and
    when it returns [False] it has not written the cache file. *)
Lemma gemini_fetch_fresh_frame u s r s' :
  Gemini.fetch_fresh L e u s = (r, s') →
  (∀ p, p ≠ cache_file u → (∀ id, p ≠ media_file id) →
        fs s' !! p = fs s !! p)
  ∧ (r = Val false → fs s' !! cache_file u = fs s !! cache_file u).
Proof.
  unfold Gemini.fetch_fresh. run.
  destruct (get_user e u) as [[id|]|]; cbn;
    try (intros; by simplify_eq).
  destruct (get_users_tweets e id) as [tl|]; cbn;
    try (intros; by simplify_eq).
  destruct (data tl) as [[|t rest]|]; cbn -[for_each];
    try (intros; by simplify_eq).
  match goal with |- context [for_each ?ts ?body ?s0] =>
    destruct (for_each ts body s0) as [[[]|ex] s1] eqn:Hloop;
    pose proof (for_each_add_tweet_frame _ _ _ _ _ Hloop) as Hs1
  end; cbn -[for_each].
  - destruct (gemini_save_run L e u (tweets s1) s1) as (s2 & Hsave & _ & _).
    pose proof Hsave as Hsave'.
    unfold Gemini.save_tweets_to_cache, try_except in Hsave'.
    rewrite write_file_run in Hsave'.
    rewrite Hsave. cbn. intros [= <- <-]. split; [|done].
    intros p Hp Hmedia. transitivity (fs s1 !! p); [|by rewrite (Hs1 p Hmedia)].
    destruct (disk_write e (cache_file u)); unfold print, modify in Hsave';
      cbn in Hsave'; simplify_eq; cbn; try done; by rewrite lookup_insert_ne.
  - intros [= <- <-]. cbn. split.
    + intros p _ Hmedia. by rewrite (Hs1 p Hmedia).
    + intros _. rewrite (Hs1 (cache_file u)); [done|].
      intros id' Heq. by eapply media_file_not_cache_file.
Qed.
End GeminiFrame.

(** X6.  Whatever makes [fetch_tweets] of the multi-modal script return [False]
    (an unknown user, no post, an exception of the social API, a tweet that
    cannot be processed after pictures were downloaded), the snapshot of the
    user is on disk as it was before. *)
Theorem gemini_failed_fetch_keeps_snapshot (L : pylib) (e : env) (u : string)
    (force : bool) (s s' : state) :
  Gemini.fetch_tweets L e u force s = (Val false, s') →
  fs s' !! cache_file u = fs s !! cache_file u.
Proof.
  intros Hrun.
  destruct (gemini_fetch_cases L e u force s)
    as [(posts & t & w & _ & _ & _ & Heq)|(w & _ & Heq)];
    rewrite Heq in Hrun; [by simplify_eq|].
  by apply gemini_fetch_fresh_frame in Hrun as [_ ->].
Qed.

Lemma gemini_failed_fetch_keeps_snapshot_witness :
  fs (Gemini.fetch_tweets cpython silent_user "alice" true
        (fresh gemini_cached)).2 !! cache_file "alice"
  = Some (Doc (Gemini.snapshot cpython noon (JArr [post1]))).
Proof.
  rewrite (gemini_failed_fetch_keeps_snapshot cpython silent_user "alice" true
             (fresh gemini_cached) _).
  - reflexivity.
  - vm_compute. reflexivity.
Defined.

(** X7.  A fetch of the multi-modal script, whatever its outcome, changes no
    file other than the cache file of the user and the files of the
    pictures. *)
Theorem gemini_fetch_writes_cache_and_media (L : pylib) (e : env) (u : string)
    (force : bool) (s : state) (r : result bool) (s' : state) (p : string) :
  Gemini.fetch_tweets L e u force s = (r, s') →
  p ≠ cache_file u →
  (∀ id, p ≠ media_file id) →
  fs s' !! p = fs s !! p.
Proof.
  intros Hrun Hp Hmedia.
  destruct (gemini_fetch_cases L e u force s)
    as [(posts & t & w & _ & _ & _ & Heq)|(w & _ & Heq)];
    rewrite Heq in Hrun; [by simplify_eq|].
  apply gemini_fetch_fresh_frame in Hrun as [Hframe _].
  by rewrite (Hframe p Hp Hmedia).
Qed.

Lemma gemini_fetch_writes_cache_and_media_witness :
  fs (Gemini.fetch_tweets cpython online "alice" true (fresh bob_cached)).2
    !! cache_file "bob"
  = bob_cached !! cache_file "bob".
Proof.
  apply (gemini_fetch_writes_cache_and_media cpython online "alice" true
           (fresh bob_cached)
           (Gemini.fetch_tweets cpython online "alice" true (fresh bob_cached)).1).
  - by destruct (Gemini.fetch_tweets cpython online "alice" true (fresh bob_cached)).
  - vm_compute. discriminate.
  - intros id Heq. symmetry in Heq. revert Heq. apply media_file_not_cache_file.
Defined.

(** ** A tweet that cannot be processed *)

Lemma for_each_app {A} (body : A → prog unit) l1 l2 s :
  for_each (l1 ++ l2) body s
  = match for_each l1 body s with
    | (Val _, s1) => for_each l2 body s1
    | (Exn ex, s1) => (Exn ex, s1)
    end.
Proof.
  revert s. induction l1 as [|x l1 IH]; intros s; [done|].
  cbn [app for_each]. unfold bind.
  destruct (body x s) as [[[]|ex] s1]; [apply IH|done].
Qed.

Lemma openrouter_tweets_data_undated ts t :
  t ∈ ts → t_created_at t = None →
  OpenRouter.tweets_data ts = Exn AttributeError.
Proof.
  intros Hin Hnone. induction ts as [|t' rest IH]; [by apply elem_of_nil in Hin|].
  cbn. apply elem_of_cons in Hin as [<-|Hin]; [by rewrite Hnone|].
  destruct (t_created_at t'); [|done]. by rewrite IH.
Qed.

(** X8.  The multi-modal script empties [self.tweets] before it processes the
    reply of the social API, tweet by tweet.  When a tweet comes without its
    creation time, the fetch returns [False] and the posts in memory are the
    ones processed before that tweet: the former posts are lost, although
    the snapshot on disk is as it was.  The chat-completion script builds
    the whole list first: on the same reply it leaves the posts in memory
    and the files untouched. *)
Theorem undated_tweet_truncates_memory (L : pylib) (e : env) (u : string)
    (id : Z) (tl : timeline) (before after : list raw_tweet) (t : raw_tweet) :
  get_user e u = Returns (Some id) →
  get_users_tweets e id = Returns tl →
  data tl = Some (before ++ t :: after) →
  forallb has_created_at before = true →
  t_created_at t = None →
  (∀ s, ∃ s',
      Gemini.fetch_tweets L e u true s = (Val false, s')
      ∧ tweets s'
        = JArr (map (expected_post e (Gemini.media_lookup_of (includes_media tl)))
                    before)
      ∧ fs s' !! cache_file u = fs s !! cache_file u)
  ∧ (∀ s, ∃ s',
      OpenRouter.fetch_fresh L e u s = (Val false, s')
      ∧ tweets s' = tweets s ∧ fs s' = fs s).
Proof.
  intros Huser Htl Hdata Hbefore Hnone. split.
  - intros s.
    assert (Hrun : ∃ s',
      Gemini.fetch_tweets L e u true s = (Val false, s')
      ∧ tweets s'
        = JArr (map (expected_post e (Gemini.media_lookup_of (includes_media tl)))
                    before)).
    { unfold Gemini.fetch_tweets. step. step. unfold Gemini.fetch_fresh.
      set (s0 := set_username (Some u) s).
      set (lookup := Gemini.media_lookup_of (includes_media tl)).
      destruct (for_each_add_tweet e lookup before
                  (set_tweets (JArr []) (add_call (GetUsersTweets id)
                                           (add_call (GetUser u) s0))) []
                  eq_refl) as (s1 & Hloop & Hs1).
      rewrite Hbefore in Hloop. specialize (Hs1 Hbefore). cbn [app] in Hs1.
      assert (Hall : for_each (before ++ t :: after) (Gemini.add_tweet e lookup)
                       (set_tweets (JArr []) (add_call (GetUsersTweets id)
                                                (add_call (GetUser u) s0)))
                     = (Exn AttributeError, s1)).
      { rewrite for_each_app, Hloop. cbn [for_each]. unfold bind.
        unfold Gemini.add_tweet at 1. rewrite Hnone. unfold bind, raise. done. }
      exists (add_output (Report "[red]Error: " AttributeError "[/red]") s1).
      split; [|done].
      rewrite (bind_val _ _ _ (Some false)
                 (add_output (Report "[red]Error: " AttributeError "[/red]") s1));
        [reflexivity|].
      erewrite try_exn; [by step|].
      step. rewrite Huser. step. step. rewrite Htl. step. rewrite Hdata.
      destruct (before ++ t :: after) as [|t0 ts0] eqn:Hts.
      { by destruct before. }
      step. fold lookup. by erewrite bind_exn by exact Hall. }
    destruct Hrun as (s' & Hrun & Hposts). exists s'.
    split; [done|]. split; [done|].
    destruct (gemini_fetch_cases L e u true s)
      as [(? & ? & ? & ? & _)|(w & _ & Heq)]; [done|].
    rewrite Heq in Hrun. by apply gemini_fetch_fresh_frame in Hrun as [_ ->].
  - intros s. unfold OpenRouter.fetch_fresh.
    assert (Hposts : OpenRouter.tweets_data (before ++ t :: after)
                     = Exn AttributeError).
    { eapply openrouter_tweets_data_undated; [|done].
      apply elem_of_app. right. apply elem_of_cons. by left. }
    exists (add_output (Report "[red]Error: " AttributeError "[/red]")
              (add_call (GetUsersTweets id) (add_call (GetUser u) s))).
    split; [|done].
    rewrite (bind_val _ _ _ (Some false)
               (add_output (Report "[red]Error: " AttributeError "[/red]")
                  (add_call (GetUsersTweets id) (add_call (GetUser u) s))));
      [reflexivity|].
    erewrite try_exn; [by step|].
    step. rewrite Huser. step. step. rewrite Htl. step. rewrite Hdata.
    destruct (before ++ t :: after) as [|t0 ts0] eqn:Hts.
    { by destruct before. }
    by erewrite bind_exn by (unfold lift; by rewrite Hposts).
Qed.

Lemma undated_tweet_truncates_memory_witness :
  (∃ s',
      Gemini.fetch_tweets cpython broken_reply "alice" true gemini_served
      = (Val false, s')
      ∧ tweets s' = JArr [expected_post broken_reply ∅ tweet101]
      ∧ fs s' !! cache_file "alice" = fs gemini_served !! cache_file "alice")
  ∧ (∃ s',
      OpenRouter.fetch_fresh cpython broken_reply "alice" openrouter_fetched
      = (Val false, s')
      ∧ tweets s' = tweets openrouter_fetched ∧ fs s' = fs openrouter_fetched).
Proof.
  destruct (undated_tweet_truncates_memory cpython broken_reply "alice" 42
              (mkTimeline (Some [tweet101; tweet_undated; tweet103]) [])
              [tweet101] [tweet103] tweet_undated) as [Hg Ho];
    try reflexivity.
  split; [apply Hg|apply Ho].
Defined.

(** ** Memory and disk after a fetch *)

Section Consistency.
Context (L : pylib) (e : env) (u : string).

Lemma openrouter_load_some s posts t s' :
  OpenRouter.load_cached_tweets L e u s = (Val (Some (posts, t)), s') →
  ∃ j, fs s !! cache_file u = Some (Doc j)
       ∧ subscript j "tweets" = Val posts.
Proof.
  unfold OpenRouter.load_cached_tweets. unfold_prog.
  destruct (fs s !! cache_file u) as [[j|]|] eqn:Hfile;
    repeat (first [progress cbn -[subscript parse_time] | rewrite Hfile]);
    try (intros; by simplify_eq).
  repeat (break_inner; cbn -[subscript parse_time] in * );
    intros; simplify_eq. by exists j.
Qed.

Lemma gemini_load_some s posts t s' :
  Gemini.load_cached_tweets L e u s = (Val (Some (posts, t)), s') →
  ∃ j, fs s !! cache_file u = Some (Doc j)
       ∧ subscript j "tweets" = Val posts.
Proof.
  unfold Gemini.load_cached_tweets. unfold_prog.
  destruct (fs s !! cache_file u) as [[j|]|] eqn:Hfile;
    repeat (first [progress cbn -[subscript parse_time] | rewrite Hfile]);
    try (intros; by simplify_eq).
  repeat (break_inner; cbn -[subscript parse_time] in * );
    intros; simplify_eq. by exists j.
Qed.
End Consistency.

Lemma openrouter_fetched_posts_truthy (L : pylib) (e : env) (u : string)
    (s s' : state) :
  OpenRouter.fetch_tweets L e u s = (Val true, s') →
  truthy (tweets s') = true.
Proof.
  intros Hrun.
  destruct (openrouter_fetch_cases L e u s)
    as [(ex & _ & Heq)|[(posts & t & _ & Htruthy & Heq)|(c & _ & _ & Heq)]];
    rewrite Heq in Hrun; simplify_eq; [done|].
  by destruct (openrouter_fetch_fresh_true L e u _ _ Hrun).
Qed.

(** X9.  After a fetch of the chat-completion script that returns [True], from
    the cache or from the network, the posts in memory are not empty and are
    the posts of the snapshot on disk. *)
Theorem openrouter_memory_matches_snapshot (L : pylib) (e : env) (u : string)
    (s s' : state) :
  OpenRouter.fetch_tweets L e u s = (Val true, s') →
  truthy (tweets s') = true
  ∧ ∃ j, fs s' !! cache_file u = Some (Doc j)
         ∧ subscript j "tweets" = Val (tweets s').
Proof.
  intros Hrun. split; [by eapply openrouter_fetched_posts_truthy|].
  destruct (openrouter_fetch_cases L e u s)
    as [(ex & _ & Heq)|[(posts & t & Hhit & Htruthy & Heq)|(c & _ & _ & Heq)]];
    rewrite Heq in Hrun; simplify_eq.
  - destruct (OpenRouter.load_cached_tweets L e u s) as [r s1] eqn:Hload.
    cbn in Hhit. subst r.
    by destruct (openrouter_load_some L e u _ _ _ _ Hload) as (j & ? & ?); exists j.
  - destruct (openrouter_fetch_fresh_true L e u _ _ Hrun) as [Hfile _].
    eexists. split; [exact Hfile|done].
Qed.

Lemma openrouter_memory_matches_snapshot_witness :
  truthy (tweets openrouter_fetched) = true
  ∧ ∃ j, fs openrouter_fetched !! cache_file "alice" = Some (Doc j)
         ∧ subscript j "tweets" = Val (tweets openrouter_fetched).
Proof.
  apply (openrouter_memory_matches_snapshot cpython online "alice" (fresh ∅)).
  vm_compute. reflexivity.
Defined.

(** X10.  The same holds for the multi-modal script on a disk that takes the
    write of the snapshot.  (On a disk that does not, the fetch still
    returns [True], with a warning.) *)
Theorem gemini_memory_matches_snapshot (L : pylib) (e : env) (u : string)
    (force : bool) (s s' : state) :
  disk_write e (cache_file u) = WriteOk →
  Gemini.fetch_tweets L e u force s = (Val true, s') →
  truthy (tweets s') = true
  ∧ ∃ j, fs s' !! cache_file u = Some (Doc j)
         ∧ subscript j "tweets" = Val (tweets s').
Proof.
  intros Hdisk Hrun.
  destruct (gemini_fetch_cases L e u force s)
    as [(posts & t & w & _ & Hhit & Htruthy & Heq)|(w & _ & Heq)];
    rewrite Heq in Hrun.
  - simplify_eq. split; [done|].
    destruct (Gemini.load_cached_tweets L e u s) as [r s1] eqn:Hload.
    cbn in Hhit. subst r.
    by destruct (gemini_load_some L e u _ _ _ _ Hload) as (j & ? & ?); exists j.
  - destruct (gemini_fetch_fresh_true L e u _ _ Hrun)
      as (id & tl & ts & Huser & Htl & Hdata & Hne & Hall).
    destruct (gemini_fetch_fresh_ok L e u
                (add_outputs w (set_username (Some u) s)) id tl ts
                Huser Htl Hdata Hne Hall) as (s1 & Hrun' & Hposts & Hfile).
    rewrite Hrun' in Hrun. simplify_eq. split.
    + rewrite Hposts. by destruct ts.
    + eexists. split; [by apply Hfile|done].
Qed.

Lemma gemini_memory_matches_snapshot_witness :
  truthy (tweets gemini_fetched) = true
  ∧ ∃ j, fs gemini_fetched !! cache_file "alice" = Some (Doc j)
         ∧ subscript j "tweets" = Val (tweets gemini_fetched).
Proof.
  apply (gemini_memory_matches_snapshot cpython online "alice" false (fresh ∅)).
  - reflexivity.
  - vm_compute. reflexivity.
Defined.

(** X11.  The multi-modal script returns [True] from a fetch whose snapshot the
    disk refused: the posts are in memory, a warning is printed and the
    cache file is as it was, so that the next fetch goes to the network
    again. *)
Theorem gemini_fetch_survives_refused_write (L : pylib) (e : env) (u : string)
    (s : state) (id : Z) (tl : timeline) (ts : list raw_tweet) (ex : exn) :
  get_user e u = Returns (Some id) →
  get_users_tweets e id = Returns tl →
  data tl = Some ts →
  ts ≠ [] →
  forallb has_created_at ts = true →
  disk_write e (cache_file u) = WriteRefused ex →
  ∃ s',
    Gemini.fetch_tweets L e u true s = (Val true, s')
    ∧ tweets s'
      = JArr (map (expected_post e (Gemini.media_lookup_of (includes_media tl))) ts)
    ∧ fs s' !! cache_file u = fs s !! cache_file u
    ∧ last (console s')
      = Some (Report "[yellow]Warning: Failed to save cache: " ex "[/yellow]").
Proof.
  intros Huser Htl Hdata Hne Hall Hdisk.
  unfold Gemini.fetch_tweets. step. step. unfold Gemini.fetch_fresh.
  set (s0 := set_username (Some u) s).
  set (lookup := Gemini.media_lookup_of (includes_media tl)).
  destruct (for_each_add_tweet e lookup ts
              (set_tweets (JArr []) (add_call (GetUsersTweets id)
                                       (add_call (GetUser u) s0))) []
              eq_refl) as (s1 & Hloop & Hs1).
  rewrite Hall in Hloop. specialize (Hs1 Hall). cbn [app] in Hs1.
  pose proof (for_each_add_tweet_frame e lookup ts _ _ _ Hloop) as Hframe.
  set (s2 := add_output (Report "[yellow]Warning: Failed to save cache: " ex
                                "[/yellow]") s1).
  assert (Hsave : Gemini.save_tweets_to_cache L e u (tweets s1) s1 = (Val tt, s2)).
  { unfold Gemini.save_tweets_to_cache, try_except.
    by rewrite write_file_run, Hdisk. }
  exists s2. split; [|split; [done|split]].
  - rewrite (bind_val _ _ _ (Some true) s2); [reflexivity|]. apply try_val.
    step. rewrite Huser. step. step. rewrite Htl. step. rewrite Hdata.
    destruct ts as [|t rest]; [done|].
    step. step. step. by step.
  - cbn. rewrite (Hframe (cache_file u)); [done|].
    intros id' Heq. by eapply media_file_not_cache_file.
  - cbn. by rewrite last_snoc.
Qed.

Lemma gemini_fetch_survives_refused_write_witness :
  ∃ s',
    Gemini.fetch_tweets cpython read_only_cache "alice" true (fresh ∅)
    = (Val true, s')
    ∧ tweets s'
      = JArr (map (expected_post read_only_cache
                     (Gemini.media_lookup_of (includes_media alice_timeline)))
                  [tweet101; tweet102; tweet103])
    ∧ fs s' !! cache_file "alice" = fs (fresh ∅) !! cache_file "alice"
    ∧ last (console s')
      = Some (Report "[yellow]Warning: Failed to save cache: "
                     (OSError "Permission denied") "[/yellow]").
Proof.
  apply (gemini_fetch_survives_refused_write cpython read_only_cache "alice"
           (fresh ∅) 42 alice_timeline [tweet101; tweet102; tweet103]
           (OSError "Permission denied")); try reflexivity.
  discriminate.
Defined.

(** ** Clearing the cache *)



Lemma set_fs_set_fs m1 m2 s : set_fs m2 (set_fs m1 s) = set_fs m2 s.
Proof. done. Qed.








(** ** The request of the multi-modal back end *)

Lemma string_app_assoc (a b c : string) : (a +:+ b) +:+ c = a +:+ b +:+ c.
Proof.
  induction a as [|x a IH]; [done|].
  change ((String x a +:+ b) +:+ c) with (String x ((a +:+ b) +:+ c)).
  by rewrite IH.
Qed.


Section PromptOfPosts.
Context (L : pylib).

Lemma load_image_exact image_path s :
  ∃ w, Gemini.load_image L image_path s
       = (Val (image_at L (fs s) image_path), add_outputs w s).
Proof.
  unfold Gemini.load_image, image_at. run.
  assert (Hid : s = add_outputs [] s) by by rewrite add_outputs_nil.
  destruct image_path as [| | |path| |]; cbn;
    try (eexists [_]; reflexivity).
  destruct (fs s !! path) as [[|b]|]; cbn; try (eexists [_]; reflexivity).
  destruct (pil_accepts L b); cbn; [|eexists [_]; reflexivity].
  exists []. by rewrite <- Hid.
Qed.

Lemma load_images_exact media_paths : ∀ images s,
  ∃ w, Gemini.load_images L media_paths images s
       = (Val (images ++ omap (image_at L (fs s)) media_paths), add_outputs w s).
Proof.
  induction media_paths as [|p rest IH]; intros images s.
  - exists []. cbn. unfold ret. by rewrite app_nil_r, add_outputs_nil.
  - cbn [Gemini.load_images omap list_omap].
    destruct (load_image_exact p s) as (w1 & Hp).
    erewrite bind_val by exact Hp.
    destruct (IH (match image_at L (fs s) p with
                  | Some i => images ++ [i]
                  | None => images
                  end) (add_outputs w1 s)) as (w2 & ->).
    exists (w1 ++ w2). rewrite add_outputs_app. cbn [fs add_outputs].
    destruct (image_at L (fs s) p); [by rewrite <- app_assoc|done].
Qed.

Lemma describe_tweet_ok tweet prompt images s :
  post_ok tweet = true →
  ∃ w, Gemini.describe_tweet L tweet (prompt, images) s
       = (Val (prompt +:+ post_lines L tweet,
               images ++ post_images L (fs s) tweet), add_outputs w s).
Proof.
  unfold post_ok, post_lines, post_images, Gemini.describe_tweet, lift, bind, ret.
  cbn beta iota.
  destruct (subscript tweet "text") as [text|]; [|done].
  destruct (subscript tweet "metrics") as [metrics|]; [|done].
  destruct (subscript tweet "media") as [attached|]; [|done].
  destruct (subscript metrics "like_count") as [likes|]; [|done].
  destruct (subscript metrics "reply_count") as [replies|]; [|done].
  destruct (subscript metrics "retweet_count") as [retweets|]; [|done].
  cbn beta iota.
  assert (Htext : ∀ a b c d e f g h i : string,
    (prompt +:+ a +:+ b +:+ c +:+ d) +:+ e +:+ f +:+ g +:+ h +:+ i
    = prompt +:+ a +:+ b +:+ c +:+ d +:+ e +:+ f +:+ g +:+ h +:+ i).
  { intros. by rewrite !string_app_assoc. }
  destruct (truthy attached); cbn beta iota.
  - destruct (py_iter attached) as [media_paths|]; [|done]. intros _.
    cbn beta iota.
    destruct (load_images_exact media_paths images s) as (w & ->).
    exists w. by rewrite Htext.
  - intros _. exists []. by rewrite add_outputs_nil, app_nil_r, Htext.
Qed.

Lemma describe_tweet_not_ok tweet prompt images s :
  post_ok tweet = false →
  ∃ ex, Gemini.describe_tweet L tweet (prompt, images) s = (Exn ex, s).
Proof.
  unfold post_ok, Gemini.describe_tweet, lift, bind, ret. cbn beta iota.
  destruct (subscript tweet "text") as [text|]; [|by eexists].
  destruct (subscript tweet "metrics") as [metrics|]; cbn beta iota;
    [|by eexists].
  destruct (subscript metrics "like_count") as [likes|]; cbn beta iota.
  2:{ destruct (subscript tweet "media"); by eexists. }
  destruct (subscript metrics "reply_count") as [replies|]; cbn beta iota.
  2:{ destruct (subscript tweet "media"); by eexists. }
  destruct (subscript metrics "retweet_count") as [retweets|]; cbn beta iota.
  2:{ destruct (subscript tweet "media"); by eexists. }
  destruct (subscript tweet "media") as [attached|]; cbn beta iota;
    [|by eexists].
  destruct (truthy attached); cbn beta iota; [|done].
  destruct (py_iter attached); cbn beta iota; [done|by eexists].
Qed.


Lemma describe_tweets_not_ok items : ∀ prompt images s,
  forallb post_ok items = false →
  ∃ ex w, Gemini.describe_tweets L items (prompt, images) s
          = (Exn ex, add_outputs w s).
Proof.
  induction items as [|tweet rest IH]; intros prompt images s Hbad; [done|].
  cbn [forallb] in Hbad. cbn [Gemini.describe_tweets].
  destruct (post_ok tweet) eqn:Htweet.
  - destruct (describe_tweet_ok tweet prompt images s Htweet) as (w1 & H1).
    erewrite bind_val by exact H1.
    destruct (IH (prompt +:+ post_lines L tweet)
                 (images ++ post_images L (fs s) tweet)
                 (add_outputs w1 s) Hbad) as (ex & w2 & ->).
    exists ex, (w1 ++ w2). by rewrite add_outputs_app.
  - destruct (describe_tweet_not_ok tweet prompt images s Htweet) as (ex & H1).
    erewrite bind_exn by exact H1. exists ex, []. by rewrite add_outputs_nil.
Qed.
End PromptOfPosts.





(** X16.  The prompt is built outside of the [try] of [analyse_with_gemini]: when
    some post in memory lacks its text, its metrics, one of the three counts
    or its media entry, the exception leaves [analyse_with_gemini], and the
    model is not called. *)
Theorem gemini_analysis_raises_on_incomplete_post (L : pylib) (e : env)
    (question : string) (s : state) (items : list json) :
  tweets s = JArr items →
  forallb post_ok items = false →
  ∃ ex s',
    Gemini.analyse_with_gemini L e question s = (Exn ex, s')
    ∧ calls s' = calls s ∧ fs s' = fs s ∧ tweets s' = tweets s.
Proof.
  intros Hposts Hbad. unfold Gemini.analyse_with_gemini.
  step. rewrite Hposts.
  assert (truthy (JArr items) = true) as -> by by destruct items.
  cbn [negb]. step. unfold Gemini.build_prompt.
  destruct (describe_tweets_not_ok L items
              (Gemini.prompt_header (username s) question) [] s Hbad)
    as (ex & w & Hrun).
  exists ex, (add_outputs w s). split; [|done].
  erewrite bind_exn; [reflexivity|]. step. exact Hrun.
Qed.

Lemma gemini_analysis_raises_on_incomplete_post_witness :
  ∃ s',
    Gemini.analyse_with_gemini cpython online "what?"
      (loaded (JArr [post1; post_without_replies]) ∅)
    = (Exn (KeyError (JStr "reply_count")), s')
    ∧ calls s' = [].
Proof.
  destruct (gemini_analysis_raises_on_incomplete_post cpython online "what?"
              (loaded (JArr [post1; post_without_replies]) ∅)
              [post1; post_without_replies])
    as (ex & s' & Hrun & Hcalls & _).
  - reflexivity.
  - reflexivity.
  - exists s'. split; [|exact Hcalls].
    rewrite Hrun. f_equal.
    assert (Hfst : (Gemini.analyse_with_gemini cpython online "what?"
                      (loaded (JArr [post1; post_without_replies]) ∅)).1
                   = Exn ex) by by rewrite Hrun.
    vm_compute in Hfst. by injection Hfst as <-.
Defined.

(** ** The chat-completion back end and its chat *)

(** X17.  A reply with status 200 whose JSON has a string as the content of the
    message of its first choice: that string is printed as the analysis,
    after the one request, and the other choices are ignored. *)
Theorem openrouter_shows_first_choice (L : pylib) (e : env)
    (question model : string) (s : state) (r : response)
    (j choices choice msg : json) (analysis : string) :
  truthy (tweets s) = true →
  http_post e OpenRouter.endpoint
    (OpenRouter.build_request L (username s) (tweets s) question model)
    = Returns r →
  status_code r = 200 →
  body_json r = Some j →
  subscript j "choices" = Val choices →
  subscript0 choices = Val choice →
  subscript choice "message" = Val msg →
  subscript msg "content" = Val (JStr analysis) →
  OpenRouter.analyse_with_openrouter L e question model s
  = (Val tt,
     add_output (Panel "Analysis" analysis)
       (add_call
          (HttpPost OpenRouter.endpoint
             (OpenRouter.request_headers (openrouter_key s))
             (OpenRouter.build_request L (username s) (tweets s) question model))
          s)).
Proof.
  intros Hposts Hreply Hstatus Hjson Hchoices Hchoice Hmsg Hcontent.
  unfold OpenRouter.analyse_with_openrouter.
  step. rewrite Hposts. cbn [negb]. step. step. cbn zeta.
  apply try_val. step. rewrite Hreply. step.
  rewrite bool_decide_eq_true_2 by done.
  erewrite bind_val; [reflexivity|].
  unfold lift, OpenRouter.analysis_of.
  by rewrite Hjson, Hchoices, Hchoice, Hmsg, Hcontent.
Qed.

Lemma openrouter_shows_first_choice_witness :
  OpenRouter.analyse_with_openrouter cpython answering "what?"
    OpenRouter.default_model (loaded (JArr [post1]) ∅)
  = (Val tt,
     add_output (Panel "Analysis" "Mostly greetings.")
       (add_call (request_of cpython (loaded (JArr [post1]) ∅) "what?")
          (loaded (JArr [post1]) ∅))).
Proof.
  eapply (openrouter_shows_first_choice cpython answering "what?"
            OpenRouter.default_model (loaded (JArr [post1]) ∅));
    reflexivity.
Defined.

Section ChatLoop.
Context (L : pylib).


End ChatLoop.



(** X19.  When the fetch of [start_chat] returns [False], [start_chat] says that
    it failed and returns: whatever is typed afterwards, no question is
    sent, and no user is selected. *)
Theorem start_chat_without_posts_asks_nothing (L : pylib) (handle : string)
    (e : env) (answers : list (string * env)) (s s1 : state) :
  OpenRouter.fetch_tweets L e (strip_at handle) (announced handle s)
    = (Val false, s1) →
  Chat.start_chat L handle e answers s
  = (Val Returned, add_output (Line "[red]Failed to fetch tweets[/red]") s1).
Proof.
  intros Hfetch. unfold Chat.start_chat. step. cbn zeta. step.
  fold (announced handle s). erewrite bind_val by exact Hfetch.
  cbn beta iota. by step.
Qed.

Lemma start_chat_without_posts_asks_nothing_witness :
  Chat.start_chat cpython "@bob" online [("what?", answering)] (fresh ∅)
  = (Val Returned,
     add_output (Line "[red]Failed to fetch tweets[/red]")
       (add_call (GetUser "bob") (announced "@bob" (fresh ∅)))).
Proof.
  apply (start_chat_without_posts_asks_nothing cpython "@bob" online
           [("what?", answering)] (fresh ∅)).
  vm_compute. reflexivity.
Defined.



(** ** Refreshing *)

Lemma clear_cache_total u s :
  ∃ b s', Gemini.clear_cache u s = (Val b, s')
          ∧ tweets s' = tweets s ∧ username s' = username s
          ∧ calls s' = calls s ∧ fs s' !! cache_file u = None.
Proof.
  destruct (fs s !! cache_file u) as [f|] eqn:Hfile.
  - destruct (clear_cache_run u s) as (b & s' & Hrun & ? & ? & ? & ?); [done|].
    by exists b, s'.
  - exists false, s. split; [|done].
    unfold Gemini.clear_cache, exists_file. step. rewrite Hfile.
    by rewrite bool_decide_eq_false_2 by by intros [? ?].
Qed.

(** X21.  A refresh for the selected user, when the social API returns posts and
    the disk takes the snapshot, returns [True]: the posts in memory are
    the posts returned, and the snapshot on disk holds them with the time of
    the refresh, whatever the cache held before. *)
Theorem refresh_replaces_posts_and_snapshot (L : pylib) (e : env) (u : string)
    (s : state) (id : Z) (tl : timeline) (ts : list raw_tweet) :
  username s = Some u →
  u ≠ "" →
  get_user e u = Returns (Some id) →
  get_users_tweets e id = Returns tl →
  data tl = Some ts →
  ts ≠ [] →
  forallb has_created_at ts = true →
  disk_write e (cache_file u) = WriteOk →
  ∃ s',
    Gemini.refresh_tweets L e s = (Val true, s')
    ∧ tweets s'
      = JArr (map (expected_post e (Gemini.media_lookup_of (includes_media tl))) ts)
    ∧ fs s' !! cache_file u
      = Some (Doc (Gemini.snapshot L (now_saved e) (tweets s'))).
Proof.
  intros Hname Hne Huser Htl Hdata Hts Hall Hdisk.
  unfold Gemini.refresh_tweets. step. rewrite Hname.
  assert (str_truthy (Some u) = true) as ->.
  { cbn. by apply negb_true_iff, String.eqb_neq. }
  step.
  destruct (clear_cache_total u
              (add_output (Line ("[cyan]Refreshing tweets for @" +:+ u
                                   +:+ "...[/cyan]")) s))
    as (b & s1 & Hclear & _).
  erewrite bind_val by exact Hclear. cbn beta.
  destruct (gemini_fetch_cases L e u true s1)
    as [(posts & t & w & ? & _)|(w & _ & ->)]; [done|].
  destruct (gemini_fetch_fresh_ok L e u
              (add_outputs w (set_username (Some u) s1)) id tl ts
              Huser Htl Hdata Hts Hall) as (s' & Hrun & Hposts & Hfile).
  exists s'. split; [done|]. split; [done|]. by apply Hfile.
Qed.

Lemma refresh_replaces_posts_and_snapshot_witness :
  ∃ s',
    Gemini.refresh_tweets cpython online gemini_served = (Val true, s')
    ∧ tweets s'
      = JArr (map (expected_post online
                     (Gemini.media_lookup_of (includes_media alice_timeline)))
                  [tweet101; tweet102; tweet103])
    ∧ fs s' !! cache_file "alice"
      = Some (Doc (Gemini.snapshot cpython noon (tweets s'))).
Proof.
  apply (refresh_replaces_posts_and_snapshot cpython online "alice"
           gemini_served 42 alice_timeline [tweet101; tweet102; tweet103]);
    try reflexivity; discriminate.
Defined.

(** ** A snapshot that cannot be written, a snapshot that has expired *)

(** X22.  The chat-completion script stores the posts in memory before it writes
    the snapshot, inside the [try] of the fetch: when the write fails, the
    fetch prints the error and returns [False] although the posts returned
    by the social API are in memory. *)
Theorem openrouter_fetch_fails_on_failed_write (L : pylib) (e : env)
    (u : string) (s : state) (id : Z) (tl : timeline) (t : raw_tweet)
    (rest : list raw_tweet) (posts : list json) (ex : exn) :
  get_user e u = Returns (Some id) →
  get_users_tweets e id = Returns tl →
  data tl = Some (t :: rest) →
  OpenRouter.tweets_data (t :: rest) = Val posts →
  disk_write e (cache_file u) = WriteRefused ex →
  ∃ s',
    OpenRouter.fetch_fresh L e u s = (Val false, s')
    ∧ tweets s' = JArr posts
    ∧ fs s' = fs s
    ∧ last (console s') = Some (Report "[red]Error: " ex "[/red]").
Proof.
  intros Huser Htl Hdata Hposts Hdisk.
  unfold OpenRouter.fetch_fresh, OpenRouter.save_tweets_to_cache, write_file.
  unfold_prog.
  repeat (first [progress cbn -[OpenRouter.tweets_data] | rewrite Huser
                | rewrite Htl | rewrite Hdata | rewrite Hposts
                | rewrite Hdisk]).
  eexists. split; [reflexivity|]. cbn. by rewrite last_snoc.
Qed.

Lemma openrouter_fetch_fails_on_failed_write_witness :
  ∃ s',
    OpenRouter.fetch_fresh cpython read_only_cache "alice" (fresh ∅)
    = (Val false, s')
    ∧ tweets s'
      = JArr [OpenRouter.tweet_data tweet101 "2024-03-05T10:00:00+00:00";
              OpenRouter.tweet_data tweet102 "2024-03-05T11:00:00+00:00";
              OpenRouter.tweet_data tweet103 "2024-03-05T12:00:00+00:00"]
    ∧ fs s' = fs (fresh ∅)
    ∧ last (console s')
      = Some (Report "[red]Error: " (OSError "Permission denied") "[/red]").
Proof.
  apply (openrouter_fetch_fails_on_failed_write cpython read_only_cache "alice"
           (fresh ∅) 42 alice_timeline tweet101 [tweet102; tweet103]);
    reflexivity.
Defined.

(** X23.  A snapshot of 24 hours or more is not served by the multi-modal script:
    a fetch without forced refresh goes to the social API and, when posts
    are returned and the disk takes the write, returns [True] with the posts
    returned in memory and in the snapshot, stamped with the time of this
    fetch. *)
Theorem gemini_expired_snapshot_is_replaced (L : pylib) (e : env) (u : string)
    (s : state) (fields : list (string * json)) (stamp : string)
    (t : datetime) (id : Z) (tl : timeline) (ts : list raw_tweet) :
  fs s !! cache_file u = Some (Doc (JObj fields)) →
  assoc "timestamp" fields = Some (JStr stamp) →
  fromisoformat L stamp = Some t →
  day ≤ now e - t →
  get_user e u = Returns (Some id) →
  get_users_tweets e id = Returns tl →
  data tl = Some ts →
  ts ≠ [] →
  forallb has_created_at ts = true →
  disk_write e (cache_file u) = WriteOk →
  ∃ s',
    Gemini.fetch_tweets L e u false s = (Val true, s')
    ∧ tweets s'
      = JArr (map (expected_post e (Gemini.media_lookup_of (includes_media tl))) ts)
    ∧ fs s' !! cache_file u
      = Some (Doc (Gemini.snapshot L (now_saved e) (tweets s'))).
Proof.
  intros Hfile Hstamp Htime Hold Huser Htl Hdata Hne Hall Hdisk.
  destruct (gemini_fetch_fresh_ok L e u (set_username (Some u) s) id tl ts
              Huser Htl Hdata Hne Hall) as (s' & Hrun & Hposts & Hsnap).
  exists s'. split; [|split; [done|by apply Hsnap]].
  unfold Gemini.fetch_tweets. step.
  rewrite (bind_val _ _ _ false (set_username (Some u) s)); [done|].
  erewrite bind_val
    by (by apply (gemini_load_expired L e u _ fields stamp t)).
  reflexivity.
Qed.

Lemma gemini_expired_snapshot_is_replaced_witness :
  ∃ s',
    Gemini.fetch_tweets cpython two_days_later "alice" false
      (fresh gemini_cached)
    = (Val true, s')
    ∧ tweets s'
      = JArr (map (expected_post two_days_later
                     (Gemini.media_lookup_of (includes_media alice_timeline)))
                  [tweet101; tweet102; tweet103])
    ∧ fs s' !! cache_file "alice"
      = Some (Doc (Gemini.snapshot cpython (noon + 2 * day) (tweets s'))).
Proof.
  apply (gemini_expired_snapshot_is_replaced cpython two_days_later "alice"
           (fresh gemini_cached)
           [("timestamp", JStr (isoformat cpython noon));
            ("tweets", JArr [post1])]
           (isoformat cpython noon) noon 42 alice_timeline
           [tweet101; tweet102; tweet103]);
    try reflexivity; discriminate.
Defined.

(** X24.  The chat-completion script does the same with a snapshot of more than
    24 hours: the fetch makes the two calls to the social API, puts the
    posts returned in memory and overwrites the snapshot with them and the
    time of this fetch; nothing is printed. *)
Theorem openrouter_expired_snapshot_is_replaced (L : pylib) (e : env)
    (u : string) (s : state) (fields : list (string * json)) (stamp : string)
    (t : datetime) (id : Z) (tl : timeline) (tw : raw_tweet)
    (rest : list raw_tweet) (posts : list json) :
  fs s !! cache_file u = Some (Doc (JObj fields)) →
  assoc "cached_at" fields = Some (JStr stamp) →
  fromisoformat L stamp = Some t →
  day < now e - t →
  get_user e u = Returns (Some id) →
  get_users_tweets e id = Returns tl →
  data tl = Some (tw :: rest) →
  OpenRouter.tweets_data (tw :: rest) = Val posts →
  disk_write e (cache_file u) = WriteOk →
  ∃ s',
    OpenRouter.fetch_tweets L e u s = (Val true, s')
    ∧ tweets s' = JArr posts
    ∧ fs s'
      = <[cache_file u :=
            Doc (OpenRouter.snapshot L (now_saved e) (JArr posts))]> (fs s)
    ∧ calls s' = calls s ++ [GetUser u; GetUsersTweets id]
    ∧ console s' = console s.
Proof.
  intros Hfile Hstamp Htime Hold Huser Htl Hdata Hposts Hdisk.
  unfold OpenRouter.fetch_tweets.
  erewrite bind_val
    by (by apply (openrouter_load_expired L e u _ fields stamp t)).
  cbn beta iota. step.
  unfold OpenRouter.fetch_fresh, OpenRouter.save_tweets_to_cache, write_file.
  unfold_prog.
  repeat (first [progress cbn -[OpenRouter.tweets_data] | rewrite Huser
                | rewrite Htl | rewrite Hdata | rewrite Hposts
                | rewrite Hdisk]).
  eexists. split; [reflexivity|]. cbn. by rewrite <- app_assoc.
Qed.

Lemma openrouter_expired_snapshot_is_replaced_witness :
  ∃ s',
    OpenRouter.fetch_tweets cpython two_days_later "alice"
      (fresh openrouter_cached)
    = (Val true, s')
    ∧ tweets s'
      = JArr [OpenRouter.tweet_data tweet101 "2024-03-05T10:00:00+00:00";
              OpenRouter.tweet_data tweet102 "2024-03-05T11:00:00+00:00";
              OpenRouter.tweet_data tweet103 "2024-03-05T12:00:00+00:00"]
    ∧ fs s'
      = <[cache_file "alice" :=
            Doc (OpenRouter.snapshot cpython (noon + 2 * day)
                   (JArr [OpenRouter.tweet_data tweet101 "2024-03-05T10:00:00+00:00";
                          OpenRouter.tweet_data tweet102 "2024-03-05T11:00:00+00:00";
                          OpenRouter.tweet_data tweet103 "2024-03-05T12:00:00+00:00"]))]>
          (fs (fresh openrouter_cached))
    ∧ calls s' = calls (fresh openrouter_cached) ++ [GetUser "alice"; GetUsersTweets 42]
    ∧ console s' = console (fresh openrouter_cached).
Proof.
  apply (openrouter_expired_snapshot_is_replaced cpython two_days_later "alice"
           (fresh openrouter_cached)
           [("tweets", JArr [post1]);
            ("cached_at", JStr (isoformat cpython noon))]
           (isoformat cpython noon) noon 42 alice_timeline
           tweet101 [tweet102; tweet103]);
    reflexivity.
Defined.
